(** * Build configuration and acquisition pipeline

    A shallow embedding of [src/constants/mozconfig.ts] and of
    [src/commands/download.ts], whose second half is the build command with
    [applyConfig].

    JavaScript strings are modelled as [string]; one [ascii] stands for one
    UTF-16 code unit in the range U+0000..U+00FF.  Template literals are
    written as the list of their lines, joined with a line feed.  Effects are
    functions from the state of the process (files, progress text, spinner,
    trace of what was logged and started) to an outcome and the next state;
    an outcome is a value, a thrown error or the exit of the process.  What
    the two modules import from elsewhere is a field of [Env]. *)

From Stdlib Require Import Ascii.
From stdpp Require Import base option list strings gmap.


(** ** JavaScript string primitives *)

Module JS.

Definition LF : ascii := "010"%char.
Definition SP : ascii := " "%char.
Definition nl : string := String LF "".
Definition dq : string := String "034"%char "".

(** [s.split(sep)] for a one-character separator: never the empty array. *)
Fixpoint split (sep : ascii) (s : string) : list string :=
  match s with
  | "" => [""]
  | String c s' =>
      if decide (c = sep) then "" :: split sep s'
      else match split sep s' with
           | [] => [String c ""]
           | w :: ws => String c w :: ws
           end
  end.

(** [a.join(sep)]. *)
Fixpoint join (sep : string) (a : list string) : string :=
  match a with
  | [] => ""
  | [w] => w
  | w :: ws => w +:+ sep +:+ join sep ws
  end.

(** The line feed joined rendering of a template literal. *)
Definition lines (a : list string) : string := join nl a.

(** [a.shift()], keeping the array that is left. *)
Definition shift (a : list string) : list string := tl a.

(** White space and line terminators that [trim] removes, among the code
    units below 256: TAB, LF, VT, FF, CR, SP and NBSP. *)
Definition is_white (c : ascii) : bool :=
  match c with
  | "009" | "010" | "011" | "012" | "013" | " " | "160" => true
  | _ => false
  end%char.

Fixpoint trim_start (s : string) : string :=
  match s with
  | "" => ""
  | String c s' => if is_white c then trim_start s' else s
  end.

Fixpoint trim_end (s : string) : string :=
  match s with
  | "" => ""
  | String c s' =>
      match trim_end s' with
      | "" => if is_white c then "" else String c ""
      | r => String c r
      end
  end.

Definition trim (s : string) : string := trim_end (trim_start s).

(** [s.includes(c)] for a one-character needle. *)
Fixpoint includes (c : ascii) (s : string) : bool :=
  match s with
  | "" => false
  | String d s' => if decide (d = c) then true else includes c s'
  end.

(** [s.startsWith(p)]. *)
Fixpoint startsWith (p s : string) : bool :=
  match p, s with
  | "", _ => true
  | String a p', String b s' => if decide (a = b) then startsWith p' s' else false
  | String _ _, "" => false
  end.

(** [a || b] on possibly undefined strings: the empty string is falsy. *)
Definition or_else (a : option string) (b : string) : string :=
  match a with
  | Some s => if decide (s = "") then b else s
  | None => b
  end.

(** [`${x}`] of a possibly undefined value. *)
Definition show (a : option string) : string := default "undefined" a.

End JS.

(** ** [src/constants/mozconfig.ts] *)

Module Mozconfig.
Import JS.

Definition otherBuildModes : string :=
  lines [ "# You can change to other build modes by running:";
          "#   $ surfer set buildMode [dev|debug|release]" ].

(** [surferPlatform] is [(process as any).surferPlatform]; the [switch]
    compares it with [===], so an undefined value takes the default. *)
Definition getPlatformOptimiseFlags (surferPlatform : option string) : string :=
  if decide (surferPlatform = Some "linux") then
    "ac_add_options --enable-optimize=" +:+ dq +:+
    "-march=x86-64 -msse3 -mtune=haswell -O3 -w" +:+ dq
  else if decide (surferPlatform = Some "darwin") then
    "ac_add_options --enable-optimize=" +:+ dq +:+
    "-O3 -march=nehalem -mtune=haswell -w" +:+ dq
  else if decide (surferPlatform = Some "win32") then
    "ac_add_options --enable-optimize=" +:+ dq +:+
    "-clang:-march=x86-64 -clang:-msse3 -clang:-mtune=haswell -clang:-O3 -w" +:+ dq
  else "# Unknown platform " +:+ show surferPlatform.

(** The [switch] on the build mode, with its initial value as the default. *)
Definition buildOptions (platformOptimize buildMode : string) : string :=
  if decide (buildMode = "dev") then
    lines [ "# Development build settings";
            otherBuildModes;
            "ac_add_options --disable-debug" ]
  else if decide (buildMode = "debug") then
    lines [ "# Debug build settings";
            otherBuildModes;
            "ac_add_options --enable-debug";
            "ac_add_options --disable-optimize" ]
  else if decide (buildMode = "release") then
    lines [ "# Release build settings";
            "ac_add_options --disable-debug";
            "ac_add_options --enable-optimize";
            "ac_add_options --enable-rust-simd";
            platformOptimize +:+ " # Taken from waterfox" ]
  else "# Unknown build mode " +:+ buildMode.

(** The part of the process the module reads: [process.surferPlatform] and
    [config.updateHostname]. *)
Record Settings := {
  surferPlatform : option string;
  updateHostname : option string;
}.

Definition platformOptimize (cfg : Settings) : string :=
  getPlatformOptimiseFlags (surferPlatform cfg).

Definition internalMozconfg (cfg : Settings) (brand buildMode : string) : string :=
  lines [ "";
          "# =====================";
          "# Internal surfer config";
          "# =====================";
          "";
          buildOptions (platformOptimize cfg) buildMode;
          "ac_add_options --disable-geckodriver";
          "ac_add_options --disable-profiling";
          "ac_add_options --disable-tests";
          "";
          "# Custom branding";
          "ac_add_options --with-branding=browser/branding/" +:+ brand;
          "";
          "# Config for updates";
          "ac_add_options --enable-unverified-updates";
          "ac_add_options --enable-update-channel=" +:+ brand;
          "export MOZ_APPUPDATE_HOST=" +:+
            or_else (updateHostname cfg) "localhost:7648 # This should not resolve";
          "" ].

End Mozconfig.

(** ** The template renderer *)

Module Template.
Import JS.

(** The text before the first [}}] of [s], when there is one. *)
Fixpoint find_close (s : string) : option string :=
  match s with
  | "" => None
  | String c s' =>
      if startsWith "}}" s then Some "" else String c <$> find_close s'
  end.

(** The key of the placeholder that starts at the head of [t]. *)
Definition placeholder_at (t : string) : option string :=
  match t with
  | String c (String d rest) =>
      if decide (c = "{"%char ∧ d = "{"%char) then find_close rest else None
  | _ => None
  end.

Definition placeholder (key : string) : string := "{{" +:+ key +:+ "}}".

(** One pass from left to right; [skip] counts the code units of a replaced
    placeholder that are still to be passed over. *)
Fixpoint render_from (skip : nat) (t : string) (m : gmap string string) : string :=
  match t with
  | "" => ""
  | String c t' =>
      match skip with
      | S n => render_from n t' m
      | O =>
          match placeholder_at t ≫= (λ k, pair k <$> m !! k) with
          | Some (k, v) => v +:+ render_from (3 + String.length k) t' m
          | None => String c (render_from 0 t' m)
          end
      end
  end.

(** Modelled from the spec: [stringTemplate] of [../utils], which is not
    among the sources.  Every occurrence of the placeholder [{{key}}] of a key
    of the mapping is replaced by its value, a placeholder whose key is
    absent stays as it is, and a substituted value is not scanned again. *)
Definition stringTemplate (template : string) (variables : gmap string string) : string :=
  render_from 0 template variables.


End Template.

(** ** Paths and the file system *)

Module Path.
Import JS.

(** A resolved path: the names from the root down.  Paths follow the POSIX
    flavour of the [path] module, the one a process has on every platform
    but win32.  The win32 flavour (drive letters, [\] as a separator next to
    [/]) is not modelled: where [process.platform] is [win32] the definitions
    below take the branches the source takes there, and name the files by
    the POSIX reading of the same strings. *)
Definition path : Type := list string.

(** One name of a path under normalisation. *)
Definition step (acc : path) (seg : string) : path :=
  if decide (seg = "" ∨ seg = ".") then acc
  else if decide (seg = "..") then removelast acc
  else acc ++ [seg].

(** POSIX [path.resolve] of [args] against the directory [base]: an absolute
    argument starts again from the root. *)
Definition resolve_from (base : path) (args : list string) : path :=
  fold_left
    (λ acc a, fold_left step (split "/" a) (if startsWith "/" a then [] else acc))
    args base.

(** The string a resolved path stands for. *)
Definition show_path (p : path) : string := "/" +:+ join "/" p.

(** POSIX [path.join]: the arguments that are not empty, joined by [/]. *)
Definition join_args (args : list string) : string :=
  join "/" (filter (λ a, a ≠ "") args).

Definition strict_prefix (p q : path) : bool :=
  bool_decide (p `prefix_of` q ∧ p ≠ q).

End Path.

Module Fs.
Import JS Path.

Inductive node :=
  | File (content : string)
  | Dir.

#[global] Instance node_eq_dec : EqDecision node.
Proof. solve_decision. Defined.

(** The entries below the directory [p]. *)
Definition below (p : path) (m : gmap path node) : list path :=
  filter (λ q, strict_prefix p q = true) (map_to_list m).*1.

(** [mkdir -p]: [pre] is the part already walked, [rest] what is left. *)
Fixpoint mkdirp (pre rest : path) (m : gmap path node) : option (gmap path node) :=
  match m !! pre with
  | Some (File _) => None
  | _ =>
      let m' := <[pre := Dir]> m in
      match rest with
      | [] => Some m'
      | s :: rest' => mkdirp (pre ++ [s]) rest' m'
      end
  end.

(** Recursive removal, as [removeSync] of fs-extra does it. *)
Definition remove_tree (p : path) (m : gmap path node) : gmap path node :=
  filter (λ kv, ¬ p `prefix_of` kv.1) m.

End Fs.

(** ** The process: environment, state, effects *)

Module Proc.
Import JS Path Fs.

Inductive error :=
  | Error (message : string)
  | TypeError (property : string)
  | SystemError (code : string) (p : path)
  | ProcessError (command : string)
  | FetchError (url : string).

Inductive level := Debug | Info | Warning | Err | Success.

Inductive event :=
  | Log (l : level) (message : string)
  | SetInterval (ms : nat)
  | SpinnerStart
  | SpinnerStop
  | Download (url : string) (dest : path)
  | DownloadArtifacts
  | Spawn (command : string) (args : list string)
  | ConsoleLog
  | WriteMetadata.

(** What the modules take from outside: the process, the configuration, the
    constants of [../constants] and the answers of the external
    collaborators. *)
Record Env := {
  platform : string;
  process_cwd : string;
  homedir : string;
  CI_SKIP_INIT : option string;
  ENGINE_DIR : string;
  CONFIGS_DIR : string;
  bin_name : string;
  gFFVersion : option string;
  config_name : string;
  config_appId : string;
  config_binaryName : string;
  (** whether [log.error] of [../log] throws, or prints and returns *)
  log_error_throws : bool;
  (** [git rev-parse HEAD]: its output, or nothing when it fails *)
  git_rev_parse : option string;
  (** the archive behind a URL, or nothing when the transfer fails *)
  network : string -> option string;
  (** the effect of [tar] on the files, and the chunks it prints *)
  tar : list string -> gmap path node -> gmap path node * list string;
  (** the chunks the initialiser prints *)
  init_output : list string;
}.

Record world := {
  fs : gmap path node;
  initProgressText : string;
  (** [initProgress] is not [null] *)
  initProgress : bool;
  trace : list event;
}.

Inductive outcome (A : Type) :=
  | Ret (a : A)
  | Throw (e : error)
  | Exit (code : nat).
Arguments Ret {A} a.
Arguments Throw {A} e.
Arguments Exit {A} code.

Definition M (A : Type) : Type := world -> outcome A * world.

#[global] Instance M_ret : MRet M := λ A a w, (Ret a, w).

#[global] Instance M_bind : MBind M := λ A B k m w,
  match m w with
  | (Ret a, w') => k a w'
  | (Throw e, w') => (Throw e, w')
  | (Exit c, w') => (Exit c, w')
  end.

Definition throw {A} (e : error) : M A := λ w, (Throw e, w).
Definition exit {A} (code : nat) : M A := λ w, (Exit code, w).

(** [try { m } catch (e) { h e }] *)
Definition try_catch {A} (m : M A) (h : error -> M A) : M A := λ w,
  match m w with
  | (Throw e, w') => h e w'
  | r => r
  end.

Definition when (b : bool) (m : M unit) : M unit := if b then m else mret tt.

Fixpoint forEach {A} (f : A -> M unit) (a : list A) : M unit :=
  match a with
  | [] => mret tt
  | x :: a' => f x ;; forEach f a'
  end.

Definition emit (e : event) : M unit := λ w,
  (Ret tt, {| fs := fs w; initProgressText := initProgressText w;
              initProgress := initProgress w; trace := trace w ++ [e] |}).

Definition set_fs (m : gmap path node) : M unit := λ w,
  (Ret tt, {| fs := m; initProgressText := initProgressText w;
              initProgress := initProgress w; trace := trace w |}).

Definition set_initProgressText (t : string) : M unit := λ w,
  (Ret tt, {| fs := fs w; initProgressText := t;
              initProgress := initProgress w; trace := trace w |}).

Definition set_initProgress (b : bool) : M unit := λ w,
  (Ret tt, {| fs := fs w; initProgressText := initProgressText w;
              initProgress := b; trace := trace w |}).

Definition get_fs : M (gmap path node) := λ w, (Ret (fs w), w).

Section WithEnv.
Variable env : Env.

(** [resolve(...args)], against the working directory of the process. *)
Definition resolve (args : list string) : path :=
  resolve_from (resolve_from [] [process_cwd env]) args.

(** The path [join(...args)] names for the file system. *)
Definition join_path (args : list string) : path := resolve [join_args args].

(** *** [../log] *)

Definition log_info (msg : string) : M unit := emit (Log Info msg).
Definition log_warning (msg : string) : M unit := emit (Log Warning msg).
Definition log_debug (msg : string) : M unit := emit (Log Debug msg).
Definition log_success (msg : string) : M unit := emit (Log Success msg).

Definition log_error (msg : string) : M unit :=
  emit (Log Err msg) ;;
  if log_error_throws env then throw (Error msg) else mret tt.

(** *** [fs] and [fs-extra] *)

Definition existsSync (p : path) : M bool :=
  m ← get_fs; mret (bool_decide (is_Some (m !! p))).

(** [ensureDirSync] of fs-extra is [mkdirSync] with [recursive]: a file
    where the directory itself is to be is [EEXIST], a file on the way to it
    is [ENOTDIR]. *)
Definition ensureDirSync (p : path) : M unit :=
  m ← get_fs;
  match mkdirp [] p m with
  | Some m' => set_fs m'
  | None =>
      throw (SystemError
               (if decide (is_Some (mkdirp [] (removelast p) m))
                then "EEXIST" else "ENOTDIR") p)
  end.

(** [rmdirSync] without options removes an empty directory only. *)
Definition rmdirSync (p : path) : M unit :=
  m ← get_fs;
  match m !! p with
  | None => throw (SystemError "ENOENT" p)
  | Some (File _) => throw (SystemError "ENOTDIR" p)
  | Some Dir =>
      match below p m with
      | [] => set_fs (delete p m)
      | _ :: _ => throw (SystemError "ENOTEMPTY" p)
      end
  end.

Definition removeSync (p : path) : M unit :=
  m ← get_fs; set_fs (remove_tree p m).

Definition readFileSync (p : path) : M string :=
  m ← get_fs;
  match m !! p with
  | Some (File content) => mret content
  | Some Dir => throw (SystemError "EISDIR" p)
  | None => throw (SystemError "ENOENT" p)
  end.

(** Opens with the flag [w]: the file is created or truncated. *)
Definition writeFileSync (p : path) (data : string) : M unit :=
  m ← get_fs;
  match m !! p with
  | Some Dir => throw (SystemError "EISDIR" p)
  | _ =>
      match m !! removelast p with
      | Some Dir => set_fs (<[p := File data]> m)
      | Some (File _) => throw (SystemError "ENOTDIR" p)
      | None => throw (SystemError "ENOENT" p)
      end
  end.

(** *** External collaborators *)

(** Modelled from the spec: [downloadFileToLocation] of [../utils/download],
    which is not among the sources: it fetches the archive to the given
    path, and a failed transfer is an error. *)
Definition downloadFileToLocation (url : string) (dest : path) : M unit :=
  emit (Download url dest) ;;
  match network env url with
  | Some body => m ← get_fs; set_fs (<[dest := File body]> m)
  | None => throw (FetchError url)
  end.

Definition git_head : M string :=
  emit (Spawn "git" ["rev-parse"; "HEAD"]) ;;
  match git_rev_parse env with
  | Some stdout => mret stdout
  | None => throw (ProcessError "git")
  end.

End WithEnv.
End Proc.

(** ** [src/commands/download.ts] *)

Module DownloadCmd.
Import JS Path Fs Proc.

Section WithEnv.
Variable env : Env.

(** The callback given to [setInterval]: the spinner shows the progress text
    when it is still there. *)
Definition progress_tick (w : world) : option string :=
  if initProgress w then Some (initProgressText w) else None.

Definition getMozPlatformIdentifier : string :=
  if decide (platform env = "linux") then "linux64" else platform env.

(** [t = line.split(' '); t.shift(); t.join(' ')] *)
Definition strip_token (line : string) : string :=
  join " " (shift (split SP line)).

Definition onLine (line : string) : M unit :=
  if decide (String.length (trim line) ≠ 0)
  then set_initProgressText (strip_token line)
  else mret tt.

Definition onData (data : string) : M unit :=
  forEach onLine (split LF data).

(** [sep] of the [path] module: the separator of the platform, the
    backslash (code 92) on win32. *)
Definition sep : ascii :=
  if decide (platform env = "win32") then "092"%char else "/"%char.

(** [cwd] as [unpackFirefoxSource] and the exit handler of [download]
    compute it: [process.cwd().split(sep).join(posix.sep)], then [./] on
    win32. *)
Definition unpack_cwd : string :=
  let cwd := join "/" (split sep (process_cwd env)) in
  if decide (platform env = "win32") then "./" else cwd.

(** [initProgress.start()] and [initProgress.stop()]: once the variable is
    [null], reading the method throws a [TypeError]. *)
Definition spinner_start : M unit := λ w,
  if initProgress w then emit SpinnerStart w else throw (TypeError "start") w.

Definition spinner_stop : M unit := λ w,
  if initProgress w then emit SpinnerStop w else throw (TypeError "stop") w.

(** The steps of [unpackFirefoxSource] before [tar] is started. *)
Definition unpack_prepare : M unit :=
  spinner_start ;;
  set_initProgressText "Unpacking Firefox..." ;;
  try_catch (rmdirSync (resolve env [ENGINE_DIR env])) (λ _, mret tt) ;;
  ensureDirSync (resolve env [ENGINE_DIR env]).

Definition tar_args (name : string) : list string :=
  [ "--transform";
    "s,firefox-" +:+ show (gFFVersion env) +:+ ",engine,";
    "--show-transformed";
    "-xf";
    show_path (resolve env [unpack_cwd; ".dotbuild"; "engines"; name]) ].

(** The [tar] process: its effect on the files, its output through [onData],
    then the [exit] handler. *)
Definition unpack_run (name : string) : M unit :=
  emit (Spawn "tar" (tar_args name)) ;;
  m ← get_fs;
  set_fs (tar env (tar_args name) m).1 ;;
  forEach onData (tar env (tar_args name) m).2 ;;
  set_initProgressText "" ;;
  spinner_stop ;;
  set_initProgress false.

Definition unpackFirefoxSource (name : string) : M unit :=
  unpack_prepare ;; unpack_run name.

Definition download_url (version : string) : string :=
  ("https://archive.mozilla.org/pub/firefox/releases/" +:+ version +:+ "/source/")
  +:+ ("firefox-" +:+ version +:+ ".source.tar.xz").

(** [version.split('b')[0]] *)
Definition version_stem (version : string) : string :=
  default "" (head (split "b" version)).

(** The directory the first check looks for. *)
Definition version_dir (version : string) : path :=
  resolve env [process_cwd env; ".dotbuild"; "engines";
               "firefox-" +:+ version_stem version].

Definition downloadFirefoxSource (version : string) : M string :=
  let base := "https://archive.mozilla.org/pub/firefox/releases/" +:+ version +:+ "/source/" in
  let filename := "firefox-" +:+ version +:+ ".source.tar.xz" in
  let url := base +:+ filename in
  log_info ("Locating Firefox release " +:+ version +:+ "...") ;;
  ensureDirSync (resolve env [process_cwd env; ".dotbuild"; "engines"]) ;;
  present ← existsSync (version_dir version);
  when present
    (log_error env
       ("Cannot download version " +:+ version_stem version +:+
        " as it already exists at " +:+ dq +:+
        show_path (resolve env [process_cwd env; "firefox-" +:+ version_stem version]) +:+
        dq)) ;;
  when (includes "b" version)
    (log_warning "Version includes non-numeric characters. This is probably a beta.") ;;
  workspace ← existsSync (resolve env [ENGINE_DIR env]);
  when workspace
    (log_error env
       ("Workspace already exists." +:+ nl +:+ "Remove that workspace and run |" +:+
        bin_name env +:+ " download " +:+ version +:+ "| again.")) ;;
  log_info ("Downloading Firefox release " +:+ version +:+ "...") ;;
  downloadFileToLocation env url
    (resolve env [process_cwd env; ".dotbuild"; "engines"; filename]) ;;
  mret filename.

(** The [exit] handler of the initialiser. *)
Definition init_exit (sourceFileName : string) : M unit :=
  log_success
    ("You should be ready to make changes to Dot Browser." +:+ nl +:+ nl +:+
     String "009" "   You should import the patches next, run |" +:+ bin_name env +:+
     " import|." +:+ nl +:+
     String "009" "   To begin building Dot, run |" +:+ bin_name env +:+ " build|.") ;;
  emit ConsoleLog ;;
  emit WriteMetadata ;;
  removeSync (resolve env [unpack_cwd; ".dotbuild"; "engines"; sourceFileName]) ;;
  exit 0.

(** The promise of [download], followed by the [exit] handler of the
    initialiser it leaves behind. *)
Definition download : M unit :=
  emit (SetInterval 100) ;;
  version ←
    match gFFVersion env with
    | Some v =>
        if decide (v = "") then
          log_error env
            "You have not specified a version of firefox in your config file. This is required to build a firefox fork" ;;
          exit 1
        else mret v
    | None =>
        log_error env
          "You have not specified a version of firefox in your config file. This is required to build a firefox fork" ;;
        exit 1
    end;
  sourceFileName ← downloadFirefoxSource version;
  unpackFirefoxSource sourceFileName ;;
  when (bool_decide (platform env = "win32"))
    (mozbuild ← existsSync (resolve env [homedir env; ".mozbuild"]);
     if mozbuild : bool
     then log_info "Mozbuild directory already exists, not redownloading"
     else log_info "Mozbuild not found, downloading artifacts." ;;
          emit DownloadArtifacts) ;;
  match CI_SKIP_INIT env with
  | Some (String _ _) => log_info "Skipping initialisation."
  | _ =>
      emit (Spawn "npx" ["melon"; "ff-init"; "engine"]) ;;
      forEach log_debug (init_output env) ;;
      init_exit sourceFileName
  end.

End WithEnv.
End DownloadCmd.

(** ** The build command: [applyConfig] *)

Module BuildCmd.
Import JS Path Fs Proc Template.

(** [s.replace(/pat/, '')]: the first occurrence of [pat] is taken out. *)
Fixpoint drop_string (n : nat) (s : string) : string :=
  match n, s with
  | S n', String _ s' => drop_string n' s'
  | _, _ => s
  end.

Fixpoint remove_first (pat s : string) : string :=
  match s with
  | "" => ""
  | String c s' =>
      if startsWith pat s then drop_string (String.length pat) s
      else String c (remove_first pat s')
  end.

Definition banner : string :=
  "# This file is automatically generated. You should only modify this if you know what you are doing!"
  +:+ nl +:+ nl.

Definition internalConfig : string := "# Internally defined by melon".

Definition mergedConfig (commonConfig osConfig customConfig : string) : string :=
  banner +:+ commonConfig +:+ (nl +:+ nl) +:+ osConfig +:+ (nl +:+ nl) +:+
  customConfig +:+ (nl +:+ nl) +:+ internalConfig.

Section WithEnv.
Variable env : Env.

Definition templateOptions (branding : bool) (changeset : string) : gmap string string :=
  list_to_map
    [ ("name", config_name env);
      ("vendor", config_name env);
      ("appId", config_appId env);
      ("brandingDir", if branding then "branding/melon" else "branding/unofficial");
      ("binName", config_binaryName env);
      ("changeset", changeset) ].

Definition common_path : path := resolve env [CONFIGS_DIR env; "common"; "mozconfig"].

Definition os_path (os arch : string) : path :=
  resolve env [CONFIGS_DIR env; os;
               if decide (arch = "i686") then "mozconfig-i686" else "mozconfig"].

Definition custom_path : path := join_path env [process_cwd env; "mozconfig"].

Definition mozconfig_path : path := resolve env [ENGINE_DIR env; "mozconfig"].

Definition echo_line (ln : string) : M unit :=
  when (startsWith "mk" ln || startsWith "ac" ln || startsWith "export" ln)
    (log_info
       (String "009" "" +:+
        remove_first "export "
          (remove_first "ac_add_options " (remove_first "mk_add_options " ln)))).

Definition applyConfig (os arch : string) : M unit :=
  log_info "Applying mozconfig..." ;;
  changeset ←
    try_catch (stdout ← git_head env; mret (trim stdout))
      (λ e,
         log_warning "Melon expects that you are building your browser with git as your version control" ;;
         log_warning "If you are using some other version control system, please migrate to git" ;;
         log_warning "Otherwise, you can setup git in this folder by running:" ;;
         log_warning "   |git init|" ;;
         throw e);
  branding ← existsSync (join_path env [ENGINE_DIR env; "branding"; "melon"]);
  let templateOptions := templateOptions branding changeset in
  common ← readFileSync common_path;
  let commonConfig := stringTemplate common templateOptions in
  os_text ← readFileSync (os_path os arch);
  let osConfig := stringTemplate os_text templateOptions in
  has_custom ← existsSync custom_path;
  customConfig ← (if has_custom : bool then readFileSync custom_path else mret "");
  let customConfig := stringTemplate customConfig templateOptions in
  let mergedConfig := mergedConfig commonConfig osConfig customConfig in
  writeFileSync mozconfig_path mergedConfig ;;
  log_info ("Config for this `" +:+ os +:+ "` build:") ;;
  forEach echo_line (split LF mergedConfig).

End WithEnv.
End BuildCmd.

(** ** Notions the statements below are phrased with *)

Module Spec.
Import JS Path Fs Proc Template DownloadCmd BuildCmd.

(** [l] is a whole line of [s], with a line before and a line after it. *)
Definition contains_line (l s : string) : Prop :=
  ∃ pre post, s = pre +:+ nl +:+ l +:+ nl +:+ post.

(** One line that is a comment. *)
Definition single_comment (s : string) : bool :=
  startsWith "#" s && negb (includes LF s).

(** A line that switches debugging or optimisation on or off. *)
Definition mode_flag (line : string) : bool :=
  startsWith "ac_add_options --enable-debug" line
  || startsWith "ac_add_options --disable-debug" line
  || startsWith "ac_add_options --enable-optimize" line
  || startsWith "ac_add_options --disable-optimize" line.

Definition one_line (s : string) : Prop := includes LF s = false.

(** Only white space, which is what [trim] reduces to nothing. *)
Fixpoint blank (s : string) : bool :=
  match s with
  | "" => true
  | String c s' => is_white c && blank s'
  end.

(** What follows the first [c] of [s]; nothing when there is none. *)
Fixpoint after_first (c : ascii) (s : string) : string :=
  match s with
  | "" => ""
  | String d s' => if decide (d = c) then s' else after_first c s'
  end.

(** The world with another progress text. *)
Definition with_progress (w : world) (t : string) : world :=
  {| fs := fs w; initProgressText := t; initProgress := initProgress w;
     trace := trace w |}.

Definition with_event (w : world) (e : event) : world :=
  {| fs := fs w; initProgressText := initProgressText w;
     initProgress := initProgress w; trace := trace w ++ [e] |}.

Definition with_fs (w : world) (m : gmap path node) : world :=
  {| fs := m; initProgressText := initProgressText w;
     initProgress := initProgress w; trace := trace w |}.

(** The warnings of [applyConfig] when [git] fails. *)
Definition git_coaching : list event :=
  [ Log Warning "Melon expects that you are building your browser with git as your version control";
    Log Warning "If you are using some other version control system, please migrate to git";
    Log Warning "Otherwise, you can setup git in this folder by running:";
    Log Warning "   |git init|" ].

(** The user's own fragment: the file at the project root, or nothing. *)
Definition custom_fragment (env : Env) (w : world) : string :=
  match fs w !! custom_path env with
  | Some (File content) => content
  | _ => ""
  end.

(** The template options [applyConfig] builds in the world [w]. *)
Definition options_in (env : Env) (w : world) (changeset : string) :
    gmap string string :=
  templateOptions env
    (bool_decide (is_Some (fs w !! join_path env [ENGINE_DIR env; "branding"; "melon"])))
    changeset.

(** The lines of a chunk that are more than white space. *)
Definition progress_lines (data : string) : list string :=
  filter (λ l, blank l = false) (split LF data).

Definition is_network (e : event) : bool :=
  match e with
  | Download _ _ | DownloadArtifacts => true
  | _ => false
  end.

Definition is_warning (e : event) : bool :=
  match e with
  | Log Warning _ => true
  | _ => false
  end.

(** The two refusals of [downloadFirefoxSource]. *)
Definition version_exists_message (env : Env) (version : string) : string :=
  "Cannot download version " +:+ version_stem version +:+
  " as it already exists at " +:+ dq +:+
  show_path (resolve env [process_cwd env; "firefox-" +:+ version_stem version]) +:+
  dq.

Definition workspace_exists_message (env : Env) (version : string) : string :=
  "Workspace already exists." +:+ nl +:+ "Remove that workspace and run |" +:+
  bin_name env +:+ " download " +:+ version +:+ "| again.".

Definition beta_advisory : event :=
  Log Warning "Version includes non-numeric characters. This is probably a beta.".

(** Where [downloadFirefoxSource] keeps the archives. *)
Definition engines_dir (env : Env) : path :=
  resolve env [process_cwd env; ".dotbuild"; "engines"].

Definition archive_name (version : string) : string :=
  "firefox-" +:+ version +:+ ".source.tar.xz".

Definition archive_path (env : Env) (version : string) : path :=
  resolve env [process_cwd env; ".dotbuild"; "engines"; archive_name version].

(** The files as [ensureDirSync] of the archive directory leaves them. *)
Definition prepared (env : Env) (w : world) : gmap path node :=
  default (fs w) (mkdirp [] (engines_dir env) (fs w)).

(** The engine workspace. *)
Definition engine_path (env : Env) : path := resolve env [ENGINE_DIR env].

(** No file stands where a directory of the way to [p] has to be. *)
Definition creatable (p : path) (m : gmap path node) : bool :=
  forallb (λ n, match m !! take n p with Some (File _) => false | _ => true end)
    (seq 0 (S (length p))).

(** The URLs of the transfers in a trace. *)
Definition fetched (t : list event) : list string :=
  omap (λ e, match e with Download url _ => Some url | _ => None end) t.

(** [downloadFirefoxSource] gets as far as the transfer: the archive
    directory can be made, and each of the two checks finds nothing or
    [log.error] returns. *)
Definition reaches_transfer (env : Env) (version : string) (w : world) : bool :=
  bool_decide (is_Some (mkdirp [] (engines_dir env) (fs w)))
  && (negb (log_error_throws env)
      || (bool_decide (prepared env w !! version_dir env version = None)
          && bool_decide (prepared env w !! resolve env [ENGINE_DIR env] = None))).

End Spec.

(** ** A concrete process, for running the definitions *)

Module Sample.
Import JS Mozconfig Path Fs Proc.

Definition cfg : Settings :=
  {| surferPlatform := Some "linux"; updateHostname := None |}.

(** [tar] as it behaves on a release archive: the tree lands in the engine
    directory and each member is printed after an [x]. *)
Definition tar_sample (args : list string) (m : gmap path node) :
    gmap path node * list string :=
  (<[ ["work"; "engine"; "mach"] := File "#!/bin/sh" ]> m,
   [ "x engine/mach" +:+ nl +:+ "x engine/moz.configure" +:+ nl; "  " +:+ nl ]).

Definition env (version : string) (throws : bool) (git : option string) : Env :=
  {| platform := "linux";
     process_cwd := "/work";
     homedir := "/home/dev";
     CI_SKIP_INIT := None;
     ENGINE_DIR := "/work/engine";
     CONFIGS_DIR := "/work/configs";
     bin_name := "melon";
     gFFVersion := Some version;
     config_name := "Dot";
     config_appId := "co.dothq";
     config_binaryName := "dot";
     log_error_throws := throws;
     git_rev_parse := git;
     network := λ _, Some "archive";
     tar := tar_sample;
     init_output := [] |}.

Definition world_of (m : gmap path node) : world :=
  {| fs := m; initProgressText := "Initialising..."; initProgress := true; trace := [] |}.

(** A project directory and nothing else. *)
Definition fresh : world :=
  world_of {[ [] := Dir; ["work"] := Dir ]}.

(** An engine workspace of an earlier run, with a file in it. *)
Definition with_engine : world :=
  world_of {[ [] := Dir; ["work"] := Dir; ["work"; "engine"] := Dir;
              ["work"; "engine"; "old.txt"] := File "stale" ]}.

(** An unpacked directory of version 115.0 under [.dotbuild/engines]. *)
Definition with_version : world :=
  world_of {[ [] := Dir; ["work"] := Dir; ["work"; ".dotbuild"] := Dir;
              ["work"; ".dotbuild"; "engines"] := Dir;
              ["work"; ".dotbuild"; "engines"; "firefox-115.0"] := Dir ]}.

(** A project with its configuration fragments and an engine workspace that
    already holds a [mozconfig]. *)
Definition with_configs : world :=
  world_of {[ [] := Dir; ["work"] := Dir; ["work"; "engine"] := Dir;
              ["work"; "engine"; "mozconfig"] := File "# from an earlier build";
              ["work"; "configs"] := Dir;
              ["work"; "configs"; "common"] := Dir;
              ["work"; "configs"; "common"; "mozconfig"] :=
                File "ac_add_options --with-app-name={{binName}}";
              ["work"; "configs"; "linux"] := Dir;
              ["work"; "configs"; "linux"; "mozconfig"] :=
                File "export MOZ_SOURCE_CHANGESET={{changeset}}" ]}.

End Sample.

(** ** The build command: [genericBuild] *)

Module BuildRun.
Import JS Path Fs Proc.

(** [`${b}`] of a boolean. *)
Definition show_bool (b : bool) : string := if b then "true" else "false".

Section WithEnv.
Variable env : Env.

(** [dispatch] of [../utils] runs a command in a directory; it is not among
    the sources and is taken as it comes. *)
Variable dispatch : string → list string → string → bool → M unit.

(** [buildOptions] after the optional [push]. *)
Definition build_args (fast : bool) : list string :=
  ["build"] ++ (if fast then ["faster"] else []).

Definition mach_path : path := join_path env [ENGINE_DIR env; "mach"].

Definition genericBuild (os : string) (fast : bool) : M unit :=
  log_info ("Building for " +:+ dq +:+ os +:+ dq +:+ "...") ;;
  log_warning
    ("If you get any dependency errors, try running |" +:+ bin_name env +:+
     " bootstrap|.") ;;
  let buildOptions := build_args fast in
  log_info (join " " buildOptions) ;;
  log_debug ("Running with build options " +:+ join ", " buildOptions) ;;
  mach ← existsSync mach_path;
  log_debug ("Mach exists: " +:+ show_bool mach) ;;
  contents ← readFileSync mach_path;
  log_debug
    ("Mach contents: " +:+ nl +:+ " " +:+ contents +:+ nl +:+ nl +:+ "===END===") ;;
  dispatch "./mach" buildOptions (ENGINE_DIR env) true.

End WithEnv.
End BuildRun.

(** ** Notions for what a command may and may not do *)

Module Laws.
Import JS Path Fs Proc DownloadCmd BuildCmd BuildRun Spec.

(** The log lines of [genericBuild] before it looks at [mach]. *)
Definition build_preamble (env : Env) (os : string) (fast : bool) : list event :=
  [ Log Info ("Building for " +:+ dq +:+ os +:+ dq +:+ "...");
    Log Warning ("If you get any dependency errors, try running |" +:+ bin_name env +:+
                 " bootstrap|.");
    Log Info (join " " (build_args fast));
    Log Debug ("Running with build options " +:+ join ", " (build_args fast)) ].

(** Every run of [m] takes a state to one that [R] relates it to. *)
Definition keeps {A} (R : world → world → Prop) (m : M A) : Prop :=
  ∀ w, R w (m w).2.

(** When [m] ends the process, code and state are in [E]. *)
Definition exits {A} (E : nat → world → Prop) (m : M A) : Prop :=
  ∀ w c, (m w).1 = Exit c → E c (m w).2.

(** When [m] returns, the value is in [Q]. *)
Definition returns {A} (Q : A → Prop) (m : M A) : Prop :=
  ∀ w a, (m w).1 = Ret a → Q a.

(** The trace has grown, by events in [P]. *)
Definition grows (P : event → Prop) (w w' : world) : Prop :=
  ∃ evs, trace w' = trace w ++ evs ∧ Forall P evs.

(** The files outside [S] are as they were. *)
Definition frames (S : path → Prop) (w w' : world) : Prop :=
  ∀ q, ¬ S q → fs w' !! q = fs w !! q.

(** [pat] occurs somewhere in [s]. *)
Fixpoint occurs (pat s : string) : bool :=
  startsWith pat s ||
  match s with
  | "" => false
  | String _ s' => occurs pat s'
  end.

(** The lines [applyConfig] echoes, and what it prints for one. *)
Definition echoed (ln : string) : bool :=
  startsWith "mk" ln || startsWith "ac" ln || startsWith "export" ln.

Definition echo_text (ln : string) : string :=
  String "009" "" +:+
  remove_first "export "
    (remove_first "ac_add_options " (remove_first "mk_add_options " ln)).

(** The platforms [getPlatformOptimiseFlags] has flags for. *)
Definition tuned (surferPlatform : option string) : bool :=
  bool_decide (surferPlatform = Some "linux" ∨ surferPlatform = Some "darwin"
               ∨ surferPlatform = Some "win32").

(** A version is given: [!version] is false. *)
Definition version_given (env : Env) : bool :=
  match gFFVersion env with
  | Some (String _ _) => true
  | _ => false
  end.

Definition version_missing_message : string :=
  "You have not specified a version of firefox in your config file. This is required to build a firefox fork".

Definition init_spawn : event := Spawn "npx" ["melon"; "ff-init"; "engine"].

(** The debug and optimize flags of a fragment, in the order of its lines. *)
Definition mode_flags (fragment : string) : list string :=
  List.filter mode_flag (split LF fragment).

(** The keys of the template options. *)
Definition option_keys : list string :=
  ["name"; "vendor"; "appId"; "brandingDir"; "binName"; "changeset"].

(** [process.env.CI_SKIP_INIT] is not set, or empty. *)
Definition init_enabled (env : Env) : bool :=
  match CI_SKIP_INIT env with
  | Some (String _ _) => false
  | _ => true
  end.

(** What [downloadFirefoxSource] may log and start for a version. *)
Definition fetch_event (env : Env) (version : string) (e : event) : Prop :=
  match e with
  | Log _ _ => True
  | Download url dest =>
      url = download_url version ∧ dest = archive_path env version
  | _ => False
  end.

(** What [unpackFirefoxSource] may start for an archive. *)
Definition unpack_event (env : Env) (name : string) (e : event) : Prop :=
  match e with
  | SpinnerStart | SpinnerStop => True
  | Spawn command args => command = "tar" ∧ args = tar_args env name
  | _ => False
  end.

(** What [download] may log and start for a version: the artifacts on
    Windows only, the initialiser and the metadata only when the initialiser
    is not switched off. *)
Definition download_event (env : Env) (version : string) (e : event) : Prop :=
  match e with
  | Log _ _ | SpinnerStart | SpinnerStop => True
  | SetInterval ms => ms = 100
  | Download url dest =>
      url = download_url version ∧ dest = archive_path env version
  | DownloadArtifacts => platform env = "win32"
  | Spawn command args =>
      (command = "tar" ∧ args = tar_args env (archive_name version))
      ∨ (Spawn command args = init_spawn ∧ init_enabled env = true)
  | ConsoleLog | WriteMetadata => init_enabled env = true
  end.

(** How [download] ends the process for a version: with code 0, from the
    exit handler of the initialiser, the metadata written last and the
    archive gone. *)
Definition download_end (env : Env) (version : string) (code : nat) (w : world) :
    Prop :=
  code = 0 ∧ init_enabled env = true
  ∧ fs w !! archive_path env version = None
  ∧ last (trace w) = Some WriteMetadata.

(** What [applyConfig] may log and start. *)
Definition config_event (e : event) : Prop :=
  match e with
  | Log _ _ => True
  | Spawn command args => command = "git" ∧ args = ["rev-parse"; "HEAD"]
  | _ => False
  end.

End Laws.

(** ** More concrete processes *)

Module Cases.
Import JS Mozconfig Path Fs Proc DownloadCmd.



(** The sample process on a platform, with the initialiser switched off or
    not. *)
Definition env_on (os : string) (skip : option string) : Env :=
  {| platform := os;
     process_cwd := "/work";
     homedir := "/home/dev";
     CI_SKIP_INIT := skip;
     ENGINE_DIR := "/work/engine";
     CONFIGS_DIR := "/work/configs";
     bin_name := "melon";
     gFFVersion := Some "115.0";
     config_name := "Dot";
     config_appId := "co.dothq";
     config_binaryName := "dot";
     log_error_throws := true;
     git_rev_parse := Some "0a1b2c";
     network := λ _, Some "archive";
     tar := Sample.tar_sample;
     init_output := ["ready"] |}.

(** A process whose configuration names no version. *)
Definition env_no_version (throws : bool) : Env :=
  {| platform := "linux";
     process_cwd := "/work";
     homedir := "/home/dev";
     CI_SKIP_INIT := None;
     ENGINE_DIR := "/work/engine";
     CONFIGS_DIR := "/work/configs";
     bin_name := "melon";
     gFFVersion := None;
     config_name := "Dot";
     config_appId := "co.dothq";
     config_binaryName := "dot";
     log_error_throws := throws;
     git_rev_parse := None;
     network := λ _, None;
     tar := Sample.tar_sample;
     init_output := [] |}.

(** A process whose transfers fail. *)
Definition env_offline : Env :=
  {| platform := "linux";
     process_cwd := "/work";
     homedir := "/home/dev";
     CI_SKIP_INIT := None;
     ENGINE_DIR := "/work/engine";
     CONFIGS_DIR := "/work/configs";
     bin_name := "melon";
     gFFVersion := Some "115.0";
     config_name := "Dot";
     config_appId := "co.dothq";
     config_binaryName := "dot";
     log_error_throws := true;
     git_rev_parse := None;
     network := λ _, None;
     tar := Sample.tar_sample;
     init_output := [] |}.

(** A [dispatch] that only records the command. *)
Definition dispatch_log (cmd : string) (args : list string) (cwd : string)
    (kill : bool) : M unit :=
  emit (Spawn cmd args).

(** An engine workspace with its [mach]. *)
Definition with_mach : world :=
  Sample.world_of
    {[ [] := Dir; ["work"] := Dir; ["work"; "engine"] := Dir;
       ["work"; "engine"; "mach"] := File "#!/bin/sh" ]}.

(** A configuration with an update host of its own. *)
Definition cfg_host (sp : option string) (host : option string) : Settings :=
  {| surferPlatform := sp; updateHostname := host |}.

(** A project whose engine workspace is an empty directory. *)
Definition with_empty_engine : world :=
  Sample.world_of {[ [] := Dir; ["work"] := Dir; ["work"; "engine"] := Dir ]}.

(** A project with the common fragment and none for the OS. *)
Definition with_common : world :=
  Sample.world_of
    {[ [] := Dir; ["work"] := Dir; ["work"; "engine"] := Dir;
       ["work"; "configs"] := Dir;
       ["work"; "configs"; "common"] := Dir;
       ["work"; "configs"; "common"; "mozconfig"] := File "export A=1" ]}.

End Cases.

(** ** Strings *)

Import JS Mozconfig Template Path Fs Proc DownloadCmd BuildCmd Spec.

Lemma app_cons (c : ascii) (s t : string) : String c s +:+ t = String c (s +:+ t).
Proof. reflexivity. Qed.

Lemma app_empty_l (s : string) : "" +:+ s = s.
Proof. reflexivity. Qed.

Lemma app_empty_r (s : string) : s +:+ "" = s.
Proof. induction s as [|c s IH]; [done|]. by rewrite app_cons, IH. Qed.

Lemma app_assoc_s (a b c : string) : (a +:+ b) +:+ c = a +:+ (b +:+ c).
Proof. induction a as [|x a IH]; [done|]. by rewrite !app_cons, IH. Qed.

Lemma includes_app (c : ascii) (a b : string) :
  includes c (a +:+ b) = includes c a || includes c b.
Proof.
  induction a as [|x a IH]; [done|].
  rewrite app_cons. simpl. by destruct (decide (x = c)).
Qed.

Lemma split_no_sep (sep : ascii) (s : string) :
  includes sep s = false → split sep s = [s].
Proof.
  induction s as [|c s IH]; [done|]. simpl.
  destruct (decide (c = sep)); [done|]. intros H. by rewrite (IH H).
Qed.

Lemma split_app_sep (sep : ascii) (a b : string) :
  includes sep a = false →
  split sep (a +:+ String sep b) = a :: split sep b.
Proof.
  induction a as [|c a IH].
  - intros _. rewrite app_empty_l. simpl. by rewrite decide_True.
  - simpl. destruct (decide (c = sep)) as [|Hne]; [done|]. intros H.
    by rewrite (IH H).
Qed.

Lemma join_cons2 (sep w w' : string) (ws : list string) :
  join sep (w :: w' :: ws) = w +:+ sep +:+ join sep (w' :: ws).
Proof. reflexivity. Qed.

Lemma lines_app (a b : list string) :
  a ≠ [] → b ≠ [] → lines (a ++ b) = lines a +:+ nl +:+ lines b.
Proof.
  unfold lines. induction a as [|x a IH]; [done|]. intros _ Hb.
  destruct a as [|y a].
  - destruct b; [done|]. reflexivity.
  - change ((x :: y :: a) ++ b) with (x :: (y :: a) ++ b).
    change ((y :: a) ++ b) with (y :: (a ++ b)) at 1.
    rewrite join_cons2. change (y :: a ++ b) with ((y :: a) ++ b).
    rewrite IH by done. rewrite join_cons2. by rewrite !app_assoc_s.
Qed.

Lemma split_lines (ls : list string) :
  ls ≠ [] → Forall one_line ls → split LF (lines ls) = ls.
Proof.
  unfold lines, one_line. induction ls as [|l ls IH]; [done|]. intros _ Hall.
  apply Forall_cons in Hall as [Hl Hls].
  destruct ls as [|l' ls].
  - by apply split_no_sep.
  - rewrite join_cons2. unfold nl. rewrite app_cons, app_empty_l.
    rewrite split_app_sep by done. f_equal. by apply IH.
Qed.

Lemma contains_line_lines (a b : list string) (l : string) :
  a ≠ [] → b ≠ [] → contains_line l (lines (a ++ l :: b)).
Proof.
  intros Ha Hb. exists (lines a), (lines b).
  rewrite lines_app by done.
  change (l :: b) with ([l] ++ b). by rewrite lines_app.
Qed.

Lemma contains_line_lookup (ls : list string) (i : nat) (l : string) :
  ls !! i = Some l → 0 < i → S i < length ls → contains_line l (lines ls).
Proof.
  intros Hl Hi Hlen. rewrite <- (take_drop_middle ls i l Hl).
  apply contains_line_lines.
  - intros H. apply (f_equal length) in H. rewrite length_take in H. simpl in H. lia.
  - intros H. apply (f_equal length) in H. rewrite length_drop in H. simpl in H. lia.
Qed.

(** ** The build-mode settings generator *)

Lemma buildOptions_unknown (po mode : string) :
  mode ≠ "dev" → mode ≠ "debug" → mode ≠ "release" →
  buildOptions po mode = "# Unknown build mode " +:+ mode.
Proof. intros. unfold buildOptions. by rewrite !decide_False. Qed.

(** C10: for every brand and every build mode the fragment has the branding
    line and the update channel line, both carrying the same brand string. *)
Theorem internalMozconfg_brand_lines (cfg : Settings) (brand buildMode : string) :
  contains_line ("ac_add_options --with-branding=browser/branding/" +:+ brand)
    (internalMozconfg cfg brand buildMode)
  ∧ contains_line ("ac_add_options --enable-update-channel=" +:+ brand)
    (internalMozconfg cfg brand buildMode).
Proof.
  unfold internalMozconfg. split.
  - apply (contains_line_lookup _ 11); [done | lia | simpl; lia].
  - apply (contains_line_lookup _ 15); [done | lia | simpl; lia].
Qed.

(** C3 as stated fails: for the mode [bogus] the fragment is not one comment
    line; it still carries the header and the settings for every mode. *)
Lemma internalMozconfg_bogus_not_single_comment :
  single_comment (internalMozconfg Sample.cfg "dot" "bogus") = false
  ∧ internalMozconfg Sample.cfg "dot" "bogus" ≠ "# Unknown build mode bogus"
  ∧ length (split LF (internalMozconfg Sample.cfg "dot" "bogus")) = 18.
Proof. split; [|split]; [reflexivity | discriminate | reflexivity]. Qed.

Lemma or_else_one_line (host : option string) (d : string) :
  (∀ h, host = Some h → one_line h) → one_line d → one_line (or_else host d).
Proof.
  intros Hh Hd. unfold or_else. destruct host as [h|]; [|done].
  case_decide; [done|]. by apply Hh.
Qed.

(** C3, amended: for a build mode other than dev, debug and release the
    mode-specific block of the fragment is exactly the one comment naming
    the mode; the fragment is the fixed header, that comment and the fixed
    trailing block, and none of its lines is a debug or optimize flag (mode,
    brand and update host being free of line breaks). *)
Theorem internalMozconfg_unknown_mode (cfg : Settings) (brand mode : string) :
  mode ≠ "dev" → mode ≠ "debug" → mode ≠ "release" →
  one_line mode → one_line brand →
  (∀ h, updateHostname cfg = Some h → one_line h) →
  buildOptions (platformOptimize cfg) mode = "# Unknown build mode " +:+ mode
  ∧ single_comment (buildOptions (platformOptimize cfg) mode) = true
  ∧ split LF (internalMozconfg cfg brand mode) =
      [ "";
        "# =====================";
        "# Internal surfer config";
        "# =====================";
        "";
        "# Unknown build mode " +:+ mode;
        "ac_add_options --disable-geckodriver";
        "ac_add_options --disable-profiling";
        "ac_add_options --disable-tests";
        "";
        "# Custom branding";
        "ac_add_options --with-branding=browser/branding/" +:+ brand;
        "";
        "# Config for updates";
        "ac_add_options --enable-unverified-updates";
        "ac_add_options --enable-update-channel=" +:+ brand;
        "export MOZ_APPUPDATE_HOST=" +:+
          or_else (updateHostname cfg) "localhost:7648 # This should not resolve";
        "" ]
  ∧ existsb mode_flag (split LF (internalMozconfg cfg brand mode)) = false.
Proof.
  intros Hdev Hdebug Hrelease Hmode Hbrand Hhost.
  assert (Hblock := buildOptions_unknown (platformOptimize cfg) mode Hdev Hdebug Hrelease).
  assert (Hor := or_else_one_line (updateHostname cfg)
                   "localhost:7648 # This should not resolve" Hhost eq_refl).
  assert (Hlines : ∀ P : list string → Prop,
            P [ "";
                "# =====================";
                "# Internal surfer config";
                "# =====================";
                "";
                "# Unknown build mode " +:+ mode;
                "ac_add_options --disable-geckodriver";
                "ac_add_options --disable-profiling";
                "ac_add_options --disable-tests";
                "";
                "# Custom branding";
                "ac_add_options --with-branding=browser/branding/" +:+ brand;
                "";
                "# Config for updates";
                "ac_add_options --enable-unverified-updates";
                "ac_add_options --enable-update-channel=" +:+ brand;
                "export MOZ_APPUPDATE_HOST=" +:+
                  or_else (updateHostname cfg) "localhost:7648 # This should not resolve";
                "" ] →
            P (split LF (internalMozconfg cfg brand mode))).
  { intros P HP. unfold internalMozconfg. rewrite Hblock.
    rewrite split_lines; [exact HP | done |].
    repeat (apply Forall_cons; split); try apply Forall_nil; unfold one_line in *;
      rewrite ?includes_app, ?Hmode, ?Hbrand, ?Hor; reflexivity. }
  split_and!.
  - exact Hblock.
  - rewrite Hblock. unfold single_comment. rewrite includes_app.
    unfold one_line in Hmode. by rewrite Hmode.
  - by apply Hlines.
  - by apply Hlines.
Qed.

Lemma internalMozconfg_unknown_mode_witness :
  existsb mode_flag (split LF (internalMozconfg Sample.cfg "dot" "bogus")) = false.
Proof.
  apply (internalMozconfg_unknown_mode Sample.cfg "dot" "bogus");
    [discriminate | discriminate | discriminate | reflexivity | reflexivity |].
  intros h Hh. discriminate Hh.
Defined.

(** ** The acquisition supervisor *)

Ltac unfold_run :=
  unfold downloadFileToLocation, ensureDirSync, rmdirSync, removeSync, readFileSync,
    writeFileSync, existsSync, git_head, when, log_error, log_info, log_warning,
    log_debug, log_success;
  unfold mbind, M_bind, mret, M_ret, emit, get_fs, set_fs, throw, exit, try_catch,
    set_initProgressText, set_initProgress.

Ltac trace_eq := simpl; rewrite <- ?app_assoc; simpl; reflexivity.

Lemma mkdirp_preserves (rest pre q : path) (m m' : gmap path node) :
  mkdirp pre rest m = Some m' → is_Some (m !! q) → is_Some (m' !! q).
Proof.
  revert pre m. induction rest as [|s rest IH]; intros pre m; simpl.
  - destruct (m !! pre) as [[]|] eqn:E; intros H Hq; simplify_eq;
      rewrite lookup_insert_is_Some'; by right.
  - destruct (m !! pre) as [[]|] eqn:E; intros H Hq; simplify_eq;
      (eapply IH; [exact H|]); rewrite lookup_insert_is_Some'; by right.
Qed.

Lemma is_Some_true {A} (o : option A) : is_Some o → bool_decide (is_Some o) = true.
Proof. intros. by apply bool_decide_eq_true. Qed.

Lemma is_Some_false {A} (o : option A) : o = None → bool_decide (is_Some o) = false.
Proof. intros ->. apply bool_decide_eq_false. by intros [? ?]. Qed.

(** Nothing follows [log.error] at the two checks of
    [downloadFirefoxSource]: when it prints and returns, neither check stops
    the run and the transfer follows. *)
Lemma downloadFirefoxSource_error_returns (env : Env) (version : string) (w : world) :
  log_error_throws env = false →
  is_Some (mkdirp [] (engines_dir env) (fs w)) →
  ∃ evs,
    trace (downloadFirefoxSource env version w).2 = trace w ++ evs
    ∧ last evs = Some (Download (download_url version) (archive_path env version)).
Proof.
  intros Hquiet [m1 Hmk].
  unfold downloadFirefoxSource. unfold_run. simpl.
  fold (engines_dir env). rewrite Hmk, Hquiet. simpl.
  fold (download_url version) (archive_name version) (archive_path env version).
  destruct (bool_decide (is_Some (m1 !! version_dir env version))); simpl;
    destruct (includes "b" version); simpl;
    destruct (bool_decide (is_Some (m1 !! resolve env [ENGINE_DIR env]))); simpl;
    destruct (network env (download_url version)); simpl;
    eexists; (split; [trace_eq | reflexivity]).
Qed.


(** The scenario of version 115.0 in a fresh project: one transfer, from the
    URL of the scheme, and the process ends with code 0. *)
Example download_end_to_end :
  (download (Sample.env "115.0" true None) Sample.fresh).1 = Exit 0
  ∧ fetched (trace (download (Sample.env "115.0" true None) Sample.fresh).2)
    = ["https://archive.mozilla.org/pub/firefox/releases/115.0/source/firefox-115.0.source.tar.xz"]
  ∧ initProgressText (unpackFirefoxSource (Sample.env "115.0" true None)
                        "firefox-115.0.source.tar.xz" Sample.fresh).2 = "".
Proof. split_and!; vm_compute; reflexivity. Qed.

(** C9: the URL [downloadFirefoxSource] resolves for a version and hands to
    the transfer is the release directory of that version followed by
    [source/firefox-<version>.source.tar.xz].  Whenever the run gets as far
    as the transfer, that URL is fetched, once, and nothing else; a run that
    stops before fetches nothing.  For version 115.0 in a fresh project the
    URL fetched is the one of the scenario. *)
Theorem download_url_scheme (env : Env) (version : string) (w : world) :
  (∃ evs,
     trace (downloadFirefoxSource env version w).2 = trace w ++ evs
     ∧ fetched evs =
         if reaches_transfer env version w
         then ["https://archive.mozilla.org/pub/firefox/releases/" +:+ version +:+
               "/source/firefox-" +:+ version +:+ ".source.tar.xz"]
         else [])
  ∧ reaches_transfer (Sample.env "115.0" true None) "115.0" Sample.fresh = true
  ∧ fetched (trace (downloadFirefoxSource (Sample.env "115.0" true None) "115.0"
                      Sample.fresh).2)
    = ["https://archive.mozilla.org/pub/firefox/releases/115.0/source/firefox-115.0.source.tar.xz"].
Proof.
  split_and!; [|vm_compute; reflexivity..].
  assert (Hurl : download_url version =
                 "https://archive.mozilla.org/pub/firefox/releases/" +:+ version +:+
                 "/source/firefox-" +:+ version +:+ ".source.tar.xz")
    by (unfold download_url; by rewrite !app_assoc_s).
  rewrite <- Hurl. clear Hurl.
  unfold reaches_transfer, prepared.
  unfold downloadFirefoxSource. unfold_run. simpl.
  fold (engines_dir env) (download_url version).
  destruct (mkdirp [] (engines_dir env) (fs w)) as [m1|] eqn:Hmk; simpl;
    [|eexists; split; [trace_eq | done]].
  destruct (m1 !! version_dir env version) as [x|] eqn:Hv; simpl;
    destruct (log_error_throws env); simpl;
    try (eexists; split; [trace_eq | done]);
    destruct (includes "b" version); simpl;
    destruct (m1 !! resolve env [ENGINE_DIR env]) as [y|] eqn:He; simpl;
    try (eexists; split; [trace_eq | done]);
    destruct (network env (download_url version)); simpl;
    (eexists; split; [trace_eq | done]).
Qed.

(** C8: a version with the letter b in it gets the beta advisory, a warning
    after which the run goes on: when the two checks for an existing
    workspace let the run pass, the advisory is logged and the transfer of
    the archive is what the run does last. *)
Theorem beta_advisory_does_not_block (env : Env) (version : string) (w : world) :
  includes "b" version = true →
  is_Some (mkdirp [] (engines_dir env) (fs w)) →
  log_error_throws env = false
    ∨ (prepared env w !! version_dir env version = None
       ∧ prepared env w !! resolve env [ENGINE_DIR env] = None) →
  ∃ w' evs,
    downloadFirefoxSource env version w =
      (match network env (download_url version) with
       | Some _ => Ret (archive_name version)
       | None => Throw (FetchError (download_url version))
       end, w')
    ∧ trace w' = trace w ++ evs
    ∧ beta_advisory ∈ evs
    ∧ last evs = Some (Download (download_url version) (archive_path env version)).
Proof.
  intros Hb [m1 Hmk] Hpass. unfold prepared in Hpass. rewrite Hmk in Hpass.
  simpl in Hpass.
  unfold downloadFirefoxSource. unfold_run. simpl.
  fold (engines_dir env). rewrite Hmk, Hb. simpl.
  fold (download_url version) (archive_name version) (archive_path env version)
    beta_advisory.
  destruct Hpass as [Hquiet | [Hv He]].
  - rewrite Hquiet.
    destruct (bool_decide (is_Some (m1 !! version_dir env version))); simpl;
      destruct (bool_decide (is_Some (m1 !! resolve env [ENGINE_DIR env]))); simpl;
      destruct (network env (download_url version)); simpl;
      eexists _, _;
      (split_and!; [reflexivity | trace_eq | set_solver | reflexivity]).
  - rewrite (is_Some_false _ Hv). simpl. rewrite (is_Some_false _ He).
    destruct (network env (download_url version)); simpl;
      eexists _, _;
      (split_and!; [reflexivity | trace_eq | set_solver | reflexivity]).
Qed.

Lemma beta_advisory_does_not_block_witness :
  ∃ w' evs,
    downloadFirefoxSource (Sample.env "116.0b3" true None) "116.0b3" Sample.fresh =
      (Ret (archive_name "116.0b3"), w')
    ∧ trace w' = trace Sample.fresh ++ evs
    ∧ beta_advisory ∈ evs
    ∧ last evs = Some (Download (download_url "116.0b3")
                         (archive_path (Sample.env "116.0b3" true None) "116.0b3")).
Proof.
  apply (beta_advisory_does_not_block (Sample.env "116.0b3" true None) "116.0b3"
           Sample.fresh).
  - reflexivity.
  - compute_done.
  - right. split; vm_compute; reflexivity.
Defined.

(** ** The line parser of the unpack step *)

Lemma split_nonempty (sep : ascii) (s : string) : split sep s ≠ [].
Proof.
  destruct s as [|c s]; [done|]. simpl.
  destruct (decide (c = sep)); [done|]. by destruct (split sep s).
Qed.

Lemma join_cons_char (sep : string) (c : ascii) (w : string) (ws : list string) :
  join sep (String c w :: ws) = String c (join sep (w :: ws)).
Proof. by destruct ws. Qed.

Lemma join_split (sep : ascii) (s : string) :
  join (String sep "") (split sep s) = s.
Proof.
  induction s as [|c s IH]; [done|]. simpl.
  destruct (decide (c = sep)) as [->|Hne].
  - destruct (split sep s) as [|w ws] eqn:E; [by apply split_nonempty in E|].
    rewrite join_cons2, IH. reflexivity.
  - destruct (split sep s) as [|w ws] eqn:E; [by apply split_nonempty in E|].
    by rewrite join_cons_char, IH.
Qed.

(** Taking the first token off a line leaves what follows its first space. *)
Lemma strip_token_after_first (line : string) :
  strip_token line = after_first SP line.
Proof.
  unfold strip_token, shift. induction line as [|c s IH]; [done|]. simpl.
  destruct (decide (c = SP)) as [->|Hne].
  - apply (join_split SP).
  - by destruct (split SP s).
Qed.

Lemma trim_end_empty (s : string) : trim_end s = "" ↔ blank s = true.
Proof.
  induction s as [|c s IH]; [done|]. simpl.
  destruct (trim_end s) eqn:E.
  - destruct (is_white c); simpl.
    + exact IH.
    + split; discriminate.
  - split; [discriminate|]. intros H. apply andb_prop in H as [_ H].
    apply IH in H. discriminate H.
Qed.

Lemma blank_trim_start (s : string) : blank (trim_start s) = blank s.
Proof.
  induction s as [|c s IH]; [done|]. simpl.
  destruct (is_white c) eqn:E; simpl; [done | by rewrite E].
Qed.

Lemma trim_empty (s : string) : trim s = "" ↔ blank s = true.
Proof. unfold trim. by rewrite trim_end_empty, blank_trim_start. Qed.

Lemma onLine_run (line : string) (w : world) :
  onLine line w =
    (Ret tt, if blank line then w else with_progress w (strip_token line)).
Proof.
  unfold onLine. destruct (blank line) eqn:E.
  - apply trim_empty in E. rewrite E. reflexivity.
  - rewrite decide_True; [done|].
    destruct (trim line) eqn:Et; [|done].
    apply trim_empty in Et. congruence.
Qed.

Lemma forEach_onLine (ls : list string) (w : world) :
  forEach onLine ls w =
    (Ret tt, fold_left (λ w' l, with_progress w' (strip_token l))
               (filter (λ l, blank l = false) ls) w).
Proof.
  revert w. induction ls as [|l ls IH]; intros w; [done|].
  simpl. unfold mbind, M_bind. rewrite onLine_run, IH.
  rewrite filter_cons. destruct (blank l); [by rewrite decide_False|].
  by rewrite decide_True.
Qed.

Lemma fold_with_progress (f : string → string) (ls : list string) (w : world) :
  fold_left (λ w' l, with_progress w' (f l)) ls w =
    match last ls with
    | Some l => with_progress w (f l)
    | None => w
    end.
Proof.
  revert w. induction ls as [|l ls IH]; intros w; [done|].
  simpl. rewrite IH, last_cons. by destruct (last ls).
Qed.

(** A chunk of three lines, the last of them white space, and a closing
    line feed: the second line is what stays. *)
Example onData_sample :
  initProgressText
    (onData ("x engine/mach" +:+ nl +:+ "x engine/moz.configure now" +:+ nl +:+
             "   " +:+ nl) Sample.fresh).2
  = "engine/moz.configure now"
  ∧ progress_lines ("x engine/mach" +:+ nl +:+ "x engine/moz.configure now" +:+ nl +:+
                    "   " +:+ nl)
    = ["x engine/mach"; "x engine/moz.configure now"]
  ∧ strip_token "  two spaces first" = " two spaces first"
  ∧ strip_token "word" = "".
Proof. split_and!; vm_compute; reflexivity. Qed.

(** C7: a chunk sets the progress text once for each of its lines that is
    more than white space, to the line without its first token and the space
    after it; lines of white space change nothing, and what is left after the
    chunk is the text of its last such line, nothing else being kept. *)
Theorem onData_progress (data : string) (w : world) :
  onData data w =
    (Ret tt, fold_left (λ w' l, with_progress w' (strip_token l))
               (progress_lines data) w)
  ∧ (onData data w).2 =
      match last (progress_lines data) with
      | Some l => with_progress w (after_first SP l)
      | None => w
      end
  ∧ (∀ l, strip_token l = after_first SP l)
  ∧ (∀ l, onLine l w =
            (Ret tt, if blank l then w else with_progress w (strip_token l))).
Proof.
  unfold onData, progress_lines. split_and!.
  - apply forEach_onLine.
  - rewrite forEach_onLine. simpl. rewrite fold_with_progress.
    destruct (last _); [|done]. by rewrite strip_token_after_first.
  - apply strip_token_after_first.
  - intros l. apply onLine_run.
Qed.

(** ** The template renderer *)





Lemma includes_cons_false (c d : ascii) (s : string) :
  includes c (String d s) = false → d ≠ c ∧ includes c s = false.
Proof. simpl. by destruct (decide (d = c)). Qed.








Lemma app_inv_head_s (a x y : string) : a +:+ x = a +:+ y → x = y.
Proof.
  induction a as [|c a IH]; [done|]. rewrite !app_cons. intros [= H]. by apply IH.
Qed.













(** Why the keys are to be free of braces: the placeholders of [a] and of
    [{a] overlap in [{{{a}}], and one pass cannot replace both; the one that
    starts first is replaced. *)
Example stringTemplate_overlapping_keys :
  stringTemplate ("{" +:+ placeholder "a" +:+ "") {[ "a" := "1"; "{a" := "2" ]} = "2"
  ∧ stringTemplate "{" {[ "a" := "1"; "{a" := "2" ]} +:+ "1" +:+
    stringTemplate "" {[ "a" := "1"; "{a" := "2" ]} = "{1".
Proof. split; vm_compute; reflexivity. Qed.



(** ** The config merger *)

Lemma run_bind {A B} (m : M A) (k : A → M B) (w w' : world) (a : A) :
  m w = (Ret a, w') → (m ≫= k) w = k a w'.
Proof. intros H. unfold mbind, M_bind. by rewrite H. Qed.

Lemma run_bind_throw {A B} (m : M A) (k : A → M B) (w w' : world) (e : error) :
  m w = (Throw e, w') → (m ≫= k) w = (Throw e, w').
Proof. intros H. unfold mbind, M_bind. by rewrite H. Qed.

Lemma emit_run (e : event) (w : world) : emit e w = (Ret tt, with_event w e).
Proof. reflexivity. Qed.

Lemma git_failure_run (env : Env) (w : world) :
  git_rev_parse env = None →
  try_catch (stdout ← git_head env; mret (trim stdout))
    (λ e,
       log_warning "Melon expects that you are building your browser with git as your version control" ;;
       log_warning "If you are using some other version control system, please migrate to git" ;;
       log_warning "Otherwise, you can setup git in this folder by running:" ;;
       log_warning "   |git init|" ;;
       throw e) w
  = (Throw (ProcessError "git"),
     foldl with_event (with_event w (Spawn "git" ["rev-parse"; "HEAD"])) git_coaching).
Proof.
  intros Hgit. unfold try_catch, git_head.
  unfold mbind at 1 2. unfold M_bind. rewrite emit_run, Hgit. reflexivity.
Qed.

(** C4 as stated fails: when [git] fails, four warnings are logged, the
    fourth being the command to run. *)
Lemma applyConfig_git_failure_four_warnings :
  List.filter is_warning
    (trace (applyConfig (Sample.env "115.0" true None) "linux" "x86_64"
              Sample.with_configs).2) = git_coaching
  ∧ length (List.filter is_warning
              (trace (applyConfig (Sample.env "115.0" true None) "linux" "x86_64"
                        Sample.with_configs).2)) ≠ 3.
Proof. split; [vm_compute; reflexivity | vm_compute; discriminate]. Qed.

(** C4, amended: when the command that resolves the changeset fails, the
    config merger logs four warnings in a row, the three that coach towards
    git and the command to run, and then raises the failure again; no file
    has been written. *)
Theorem applyConfig_git_failure (env : Env) (os arch : string) (w : world) :
  git_rev_parse env = None →
  ∃ w',
    applyConfig env os arch w = (Throw (ProcessError "git"), w')
    ∧ trace w' =
        trace w ++ [Log Info "Applying mozconfig..."; Spawn "git" ["rev-parse"; "HEAD"]]
        ++ git_coaching
    ∧ length (List.filter is_warning git_coaching) = 4
    ∧ fs w' = fs w.
Proof.
  intros Hgit. unfold applyConfig.
  erewrite run_bind by apply emit_run.
  erewrite run_bind_throw by (by apply git_failure_run).
  eexists. split_and!; [reflexivity | | reflexivity | reflexivity].
  simpl. by rewrite <- !app_assoc.
Qed.

Lemma applyConfig_git_failure_witness :
  ∃ w',
    applyConfig (Sample.env "115.0" true None) "linux" "x86_64" Sample.with_configs
      = (Throw (ProcessError "git"), w')
    ∧ trace w' =
        trace Sample.with_configs
        ++ [Log Info "Applying mozconfig..."; Spawn "git" ["rev-parse"; "HEAD"]]
        ++ git_coaching
    ∧ length (List.filter is_warning git_coaching) = 4
    ∧ fs w' = fs Sample.with_configs.
Proof.
  apply (applyConfig_git_failure (Sample.env "115.0" true None) "linux" "x86_64"
           Sample.with_configs).
  reflexivity.
Defined.

Lemma git_success_run (env : Env) (w : world) (stdout : string)
    (h : error → M string) :
  git_rev_parse env = Some stdout →
  try_catch (stdout ← git_head env; mret (trim stdout)) h w
  = (Ret (trim stdout), with_event w (Spawn "git" ["rev-parse"; "HEAD"])).
Proof.
  intros Hgit. unfold try_catch, git_head.
  unfold mbind at 1 2. unfold M_bind. rewrite emit_run, Hgit. reflexivity.
Qed.

Lemma existsSync_run (p : path) (w : world) :
  existsSync p w = (Ret (bool_decide (is_Some (fs w !! p))), w).
Proof. reflexivity. Qed.

Lemma readFileSync_run (p : path) (w : world) (content : string) :
  fs w !! p = Some (File content) → readFileSync p w = (Ret content, w).
Proof.
  intros H. unfold readFileSync, get_fs. unfold mbind, M_bind. by rewrite H.
Qed.

Lemma writeFileSync_run (p : path) (data : string) (w : world) :
  fs w !! p ≠ Some Dir → fs w !! removelast p = Some Dir →
  writeFileSync p data w = (Ret tt, with_fs w (<[p := File data]> (fs w))).
Proof.
  intros Hp Hparent. unfold writeFileSync, get_fs. unfold mbind, M_bind.
  rewrite Hparent. by destruct (fs w !! p) as [[]|].
Qed.

Lemma echo_line_run (l : string) (w : world) :
  ∃ w', echo_line l w = (Ret tt, w') ∧ fs w' = fs w.
Proof.
  unfold echo_line, when.
  destruct (startsWith "mk" l || startsWith "ac" l || startsWith "export" l);
    by eexists.
Qed.

(** Echoing the options of the merged file only logs. *)
Lemma forEach_echo_line (ls : list string) (w : world) :
  ∃ w', forEach echo_line ls w = (Ret tt, w') ∧ fs w' = fs w.
Proof.
  revert w. induction ls as [|l ls IH]; intros w; [by eexists|].
  destruct (echo_line_run l w) as (w1 & Hrun1 & Hfs1).
  destruct (IH w1) as (w' & Hrun & Hfs).
  exists w'. simpl. erewrite run_bind by exact Hrun1.
  split; [exact Hrun | congruence].
Qed.

Lemma custom_config_run (env : Env) (w : world) :
  fs w !! custom_path env ≠ Some Dir →
  (if bool_decide (is_Some (fs w !! custom_path env))
   then readFileSync (custom_path env) else mret "") w
  = (Ret (custom_fragment env w), w).
Proof.
  intros H. unfold custom_fragment.
  destruct (fs w !! custom_path env) as [[content|]|] eqn:E.
  - rewrite bool_decide_eq_true_2 by eauto. by apply readFileSync_run.
  - done.
  - rewrite bool_decide_eq_false_2; [done|]. by intros [? ?].
Qed.

(** C2: the merged configuration is the banner, then the rendered common
    fragment, the rendered fragment of the OS, the rendered fragment of the
    user and the internal fragment, a blank line between each two, and it
    replaces whatever the [mozconfig] of the engine workspace held. *)
Theorem applyConfig_writes_merged
    (env : Env) (os arch : string) (w : world) (stdout common os_text : string) :
  git_rev_parse env = Some stdout →
  fs w !! common_path env = Some (File common) →
  fs w !! os_path env os arch = Some (File os_text) →
  fs w !! custom_path env ≠ Some Dir →
  fs w !! mozconfig_path env ≠ Some Dir →
  fs w !! removelast (mozconfig_path env) = Some Dir →
  ∃ w' merged,
    applyConfig env os arch w = (Ret tt, w')
    ∧ merged =
        "# This file is automatically generated. You should only modify this if you know what you are doing!"
        +:+ nl +:+ nl +:+
        stringTemplate common (options_in env w (trim stdout)) +:+ nl +:+ nl +:+
        stringTemplate os_text (options_in env w (trim stdout)) +:+ nl +:+ nl +:+
        stringTemplate (custom_fragment env w) (options_in env w (trim stdout))
        +:+ nl +:+ nl +:+
        "# Internally defined by melon"
    ∧ fs w' = <[mozconfig_path env := File merged]> (fs w)
    ∧ fs w' !! mozconfig_path env = Some (File merged).
Proof.
  intros Hgit Hcommon Hos Hcustom Htarget Hparent. unfold applyConfig.
  erewrite run_bind by apply emit_run.
  erewrite run_bind by (by apply git_success_run).
  erewrite run_bind by apply existsSync_run.
  erewrite run_bind by (by apply readFileSync_run).
  erewrite run_bind by (by apply readFileSync_run).
  erewrite run_bind by apply existsSync_run.
  erewrite run_bind by (by apply custom_config_run).
  erewrite run_bind by (by apply writeFileSync_run).
  erewrite run_bind by apply emit_run.
  match goal with |- context [forEach echo_line ?ls ?w0] =>
    destruct (forEach_echo_line ls w0) as (w' & Hrun & Hfs) end.
  exists w'. eexists. split_and!.
  - exact Hrun.
  - reflexivity.
  - rewrite Hfs. simpl. unfold mergedConfig, banner, internalConfig, options_in.
    simpl. by rewrite !app_assoc_s.
  - rewrite Hfs. simpl. rewrite lookup_insert_eq.
    unfold mergedConfig, banner, internalConfig, options_in.
    simpl. by rewrite !app_assoc_s.
Qed.

Lemma applyConfig_writes_merged_witness :
  ∃ w' merged,
    applyConfig (Sample.env "115.0" true (Some "0a1b2c")) "linux" "x86_64"
      Sample.with_configs = (Ret tt, w')
    ∧ merged =
        "# This file is automatically generated. You should only modify this if you know what you are doing!"
        +:+ nl +:+ nl +:+
        stringTemplate "ac_add_options --with-app-name={{binName}}"
          (options_in (Sample.env "115.0" true (Some "0a1b2c")) Sample.with_configs
             (trim "0a1b2c")) +:+ nl +:+ nl +:+
        stringTemplate "export MOZ_SOURCE_CHANGESET={{changeset}}"
          (options_in (Sample.env "115.0" true (Some "0a1b2c")) Sample.with_configs
             (trim "0a1b2c")) +:+ nl +:+ nl +:+
        stringTemplate
          (custom_fragment (Sample.env "115.0" true (Some "0a1b2c")) Sample.with_configs)
          (options_in (Sample.env "115.0" true (Some "0a1b2c")) Sample.with_configs
             (trim "0a1b2c"))
        +:+ nl +:+ nl +:+
        "# Internally defined by melon"
    ∧ fs w' =
        <[mozconfig_path (Sample.env "115.0" true (Some "0a1b2c")) := File merged]>
          (fs Sample.with_configs)
    ∧ fs w' !! mozconfig_path (Sample.env "115.0" true (Some "0a1b2c"))
        = Some (File merged).
Proof.
  apply (applyConfig_writes_merged (Sample.env "115.0" true (Some "0a1b2c"))
           "linux" "x86_64" Sample.with_configs "0a1b2c").
  - reflexivity.
  - vm_compute. reflexivity.
  - vm_compute. reflexivity.
  - vm_compute. discriminate.
  - vm_compute. discriminate.
  - vm_compute. reflexivity.
Defined.

(** The file [applyConfig] leaves in the sample project, line by line. *)
Example applyConfig_sample_file :
  fs (applyConfig (Sample.env "115.0" true (Some "0a1b2c")) "linux" "x86_64"
        Sample.with_configs).2
    !! ["work"; "engine"; "mozconfig"]
  = Some (File (lines
      [ "# This file is automatically generated. You should only modify this if you know what you are doing!";
        "";
        "ac_add_options --with-app-name=dot";
        "";
        "export MOZ_SOURCE_CHANGESET=0a1b2c";
        "";
        "";
        "";
        "# Internally defined by melon" ])).
Proof. vm_compute. reflexivity. Qed.

(** ** The engine directory before unpacking *)

Lemma below_nil (p : path) (m : gmap path node) :
  below p m = [] ↔ ∀ q, strict_prefix p q = true → m !! q = None.
Proof.
  unfold below. split.
  - intros Hnil q Hq. destruct (m !! q) as [x|] eqn:E; [|done].
    exfalso. eapply (filter_nil_not_elem_of _ _ q Hnil Hq).
    apply list_elem_of_fmap. exists (q, x). split; [done|].
    by apply elem_of_map_to_list.
  - intros Hnone.
    destruct (filter _ _) as [|q l] eqn:E; [done|]. exfalso.
    assert (Hin : q ∈ filter (λ q, strict_prefix p q = true) (map_to_list m).*1)
      by (rewrite E; left).
    apply list_elem_of_filter in Hin as [Hq Hin].
    apply list_elem_of_fmap in Hin as ([q' x] & -> & Hin).
    apply elem_of_map_to_list in Hin. simpl in Hq.
    rewrite (Hnone q' Hq) in Hin. discriminate Hin.
Qed.

Lemma strict_prefix_not_prefix (p q : path) :
  strict_prefix p q = true → ¬ q `prefix_of` p.
Proof.
  unfold strict_prefix. intros H Hqp. apply bool_decide_eq_true in H as [Hpq Hne].
  apply Hne. by apply (anti_symm prefix).
Qed.

Lemma mkdirp_lookup_other (rest pre q : path) (m m' : gmap path node) :
  mkdirp pre rest m = Some m' → ¬ q `prefix_of` pre ++ rest → m' !! q = m !! q.
Proof.
  revert pre m. induction rest as [|s rest IH]; intros pre m; simpl.
  - rewrite app_nil_r. intros H Hq.
    assert (pre ≠ q) by (intros ->; by apply Hq).
    destruct (m !! pre) as [[]|]; simplify_eq; by rewrite lookup_insert_ne.
  - intros H Hq.
    assert (pre ≠ q) by (intros ->; apply Hq; by apply prefix_app_r).
    assert (Hrec : ¬ q `prefix_of` (pre ++ [s]) ++ rest)
      by (by rewrite <- app_assoc).
    destruct (m !! pre) as [[]|]; simplify_eq;
      rewrite (IH _ _ H Hrec); by rewrite lookup_insert_ne.
Qed.

Lemma mkdirp_lookup_target (rest pre : path) (m m' : gmap path node) :
  mkdirp pre rest m = Some m' → m' !! (pre ++ rest) = Some Dir.
Proof.
  revert pre m. induction rest as [|s rest IH]; intros pre m; simpl.
  - rewrite app_nil_r. intros H.
    destruct (m !! pre) as [[]|]; simplify_eq; by rewrite lookup_insert_eq.
  - intros H. replace (pre ++ s :: rest) with ((pre ++ [s]) ++ rest)
      by (by rewrite <- app_assoc).
    destruct (m !! pre) as [[]|]; simplify_eq; by eapply IH.
Qed.

Lemma mkdirp_succeeds (rest pre : path) (m : gmap path node) :
  (∀ q content, pre `prefix_of` q → q `prefix_of` pre ++ rest →
                m !! q ≠ Some (File content)) →
  is_Some (mkdirp pre rest m).
Proof.
  revert pre m. induction rest as [|s rest IH]; intros pre m Hok; simpl.
  - destruct (m !! pre) as [[content|]|] eqn:E; [|by eexists..].
    exfalso. apply (Hok pre content); [done | by apply prefix_app_r | done].
  - assert (Hrec : is_Some (mkdirp (pre ++ [s]) rest (<[pre:=Dir]> m))).
    { apply IH. intros q content Hpre Hq.
      assert (pre ≠ q) by (intros ->; by apply prefix_snoc_not in Hpre).
      rewrite lookup_insert_ne by done.
      apply Hok; [by eapply prefix_app_l | by rewrite <- app_assoc in Hq]. }
    destruct (m !! pre) as [[content|]|] eqn:E; [|done..].
    exfalso. apply (Hok pre content); [done | by apply prefix_app_r | done].
Qed.

(** What [rmdirSync] under its empty [catch] leaves of the files. *)
Lemma try_rmdir_run (p : path) (w : world) :
  ∃ m1, try_catch (rmdirSync p) (λ _, mret tt) w = (Ret tt, with_fs w m1)
        ∧ (m1 = fs w ∨ (m1 = delete p (fs w) ∧ below p (fs w) = [])).
Proof.
  unfold try_catch, rmdirSync, get_fs. unfold mbind, M_bind.
  destruct w as [m t b tr]; simpl.
  destruct (m !! p) as [[content|]|]; [by exists m; split; [|left]| |by exists m; split; [|left]].
  destruct (below p m) eqn:E; [|by exists m; split; [|left]].
  exists (delete p m). split; [done|]. by right.
Qed.

Lemma creatable_prefix (p q : path) (m : gmap path node) (content : string) :
  creatable p m = true → q `prefix_of` p → m !! q ≠ Some (File content).
Proof.
  unfold creatable. intros Hall [k ->] Hq.
  rewrite forallb_forall in Hall.
  assert (Hin : In (length q) (seq 0 (S (length (q ++ k))))).
  { apply in_seq. rewrite length_app. lia. }
  specialize (Hall (length q) Hin). simpl in Hall.
  rewrite take_app_length in Hall. unfold path in *.
  rewrite Hq in Hall. discriminate Hall.
Qed.

Lemma spinner_start_run (w : world) :
  initProgress w = true → spinner_start w = (Ret tt, with_event w SpinnerStart).
Proof. intros H. unfold spinner_start. by rewrite H. Qed.

Lemma spinner_start_null (w : world) :
  initProgress w = false → spinner_start w = (Throw (TypeError "start"), w).
Proof. intros H. unfold spinner_start. by rewrite H. Qed.

Lemma spinner_stop_run (w : world) :
  initProgress w = true → spinner_stop w = (Ret tt, with_event w SpinnerStop).
Proof. intros H. unfold spinner_stop. by rewrite H. Qed.


(** X23: with the spinner there, an engine directory that is missing or
    empty is an empty directory when [tar] is about to be started: the steps
    before remove it when it is there and make it again, with the
    directories that lead to it, and touch nothing else. *)
Theorem unpack_prepare_engine_dir (env : Env) (w : world) :
  initProgress w = true →
  creatable (engine_path env) (fs w) = true →
  below (engine_path env) (fs w) = [] →
  ∃ w',
    unpack_prepare env w = (Ret tt, w')
    ∧ fs w' !! engine_path env = Some Dir
    ∧ below (engine_path env) (fs w') = []
    ∧ (∀ q : path, ¬ q `prefix_of` engine_path env → fs w' !! q = fs w !! q).
Proof.
  intros Hspin Hok Hempty. unfold unpack_prepare. fold (engine_path env).
  erewrite run_bind by (by apply spinner_start_run).
  erewrite run_bind by reflexivity.
  destruct (try_rmdir_run (engine_path env)
              (with_progress (with_event w SpinnerStart) "Unpacking Firefox..."))
    as (m1 & Hrm & Hm1).
  erewrite run_bind by exact Hrm. simpl in Hm1.
  assert (Hok1 : ∀ q content, q `prefix_of` engine_path env →
                               m1 !! q ≠ Some (File content)).
  { intros q content Hq.
    destruct Hm1 as [-> | [-> _]]; [by eapply creatable_prefix|].
    intros H. apply lookup_delete_Some in H as [_ H].
    by eapply creatable_prefix. }
  destruct (mkdirp_succeeds (engine_path env) [] m1) as [m2 Hmk].
  { intros q content _ Hq. by apply Hok1. }
  assert (Hother : ∀ q : path, ¬ q `prefix_of` engine_path env → m2 !! q = fs w !! q).
  { intros q Hq. rewrite (mkdirp_lookup_other _ _ q _ _ Hmk) by done.
    destruct Hm1 as [-> | [-> _]]; [done|].
    apply lookup_delete_ne. intros Heq. apply Hq. by rewrite Heq. }
  unfold ensureDirSync, get_fs. unfold mbind, M_bind. simpl. rewrite Hmk.
  eexists. split_and!; [reflexivity | | | exact Hother].
  - simpl. apply (mkdirp_lookup_target _ [] _ _ Hmk).
  - simpl. rewrite below_nil in Hempty. rewrite below_nil. intros q Hq.
    transitivity (fs w !! q);
      [apply Hother; by apply strict_prefix_not_prefix | by apply Hempty].
Qed.

Lemma unpack_prepare_engine_dir_witness :
  ∃ w',
    unpack_prepare (Sample.env "115.0" true None) Cases.with_empty_engine = (Ret tt, w')
    ∧ fs w' !! engine_path (Sample.env "115.0" true None) = Some Dir
    ∧ below (engine_path (Sample.env "115.0" true None)) (fs w') = []
    ∧ (∀ q : path, ¬ q `prefix_of` engine_path (Sample.env "115.0" true None) →
            fs w' !! q = fs Cases.with_empty_engine !! q).
Proof.
  apply (unpack_prepare_engine_dir (Sample.env "115.0" true None)
           Cases.with_empty_engine).
  - reflexivity.
  - vm_compute. reflexivity.
  - vm_compute. reflexivity.
Defined.

(** ** Further properties of the download command *)

Import BuildRun Laws.

Lemma head_split_cons (sep c : ascii) (s : string) :
  head (split sep (String c s)) =
    if decide (c = sep) then Some "" else String c <$> head (split sep s).
Proof.
  simpl. destruct (decide (c = sep)); [done|].
  destruct (split sep s) as [|w ws] eqn:E; [by apply split_nonempty in E|done].
Qed.

(** X1: [version.split('b')[0]] is the version up to its first b: it has no b,
    and the version is it, followed by that b and the rest when there is
    one. *)
Theorem version_stem_first_b (version : string) :
  includes "b" (version_stem version) = false
  ∧ version =
      version_stem version +:+
      (if includes "b" version then String "b" (after_first "b" version) else "").
Proof.
  unfold version_stem. induction version as [|c s [IH1 IH2]]; [done|].
  rewrite head_split_cons. simpl.
  destruct (decide (c = "b"%char)) as [->|Hc]; [done|].
  destruct (head (split "b" s)) as [stem|] eqn:E; simpl in *.
  - rewrite decide_False by done. split; [done|].
    rewrite app_cons. by rewrite <- IH2.
  - destruct (split "b" s) eqn:E'; [by apply split_nonempty in E'|done].
Qed.

Lemma resolve_cwd_first (env : Env) (rest : list string) :
  startsWith "/" (process_cwd env) = true →
  resolve env (process_cwd env :: rest)
  = resolve_from (resolve_from [] [process_cwd env]) rest.
Proof. intros H. unfold resolve, resolve_from. cbn [fold_left]. by rewrite H. Qed.

Lemma resolve_dot_first (env : Env) (rest : list string) :
  resolve env ("./" :: rest)
  = resolve_from (resolve_from [] [process_cwd env]) rest.
Proof. reflexivity. Qed.

(** Off win32 the separator of the platform is the POSIX one, and splitting
    the working directory at it and joining the parts with it changes
    nothing. *)
Lemma unpack_cwd_posix (env : Env) :
  platform env ≠ "win32" → unpack_cwd env = process_cwd env.
Proof.
  intros Hp. unfold unpack_cwd, sep. rewrite !decide_False by done.
  apply (join_split "/").
Qed.

Lemma unpack_cwd_archive_path (env : Env) (version : string) :
  startsWith "/" (process_cwd env) = true →
  resolve env [unpack_cwd env; ".dotbuild"; "engines"; archive_name version]
    = archive_path env version.
Proof.
  intros Habs.
  unfold archive_path. rewrite (resolve_cwd_first env) by done.
  destruct (decide (platform env = "win32")) as [Hw|Hp].
  - unfold unpack_cwd. rewrite decide_True by done. apply resolve_dot_first.
  - rewrite unpack_cwd_posix by done. by apply resolve_cwd_first.
Qed.

(** X2: off win32, the working directory as the unpack step and the exit
    handler of [download] rewrite it, split at the separator of the platform
    and joined with the POSIX one, is the working directory itself; so the
    file [tar] is given and the file the exit handler removes are the file
    the archive was downloaded to. *)
Theorem unpack_reads_downloaded_archive (env : Env) (version : string) :
  platform env ≠ "win32" →
  unpack_cwd env = process_cwd env
  ∧ resolve env [unpack_cwd env; ".dotbuild"; "engines"; archive_name version]
    = archive_path env version
  ∧ last (tar_args env (archive_name version))
    = Some (show_path (archive_path env version)).
Proof.
  intros Hp. split_and!.
  - by apply unpack_cwd_posix.
  - by rewrite unpack_cwd_posix.
  - unfold tar_args. simpl. by rewrite unpack_cwd_posix.
Qed.

Lemma unpack_reads_downloaded_archive_witness :
  unpack_cwd (Sample.env "115.0" true None) = process_cwd (Sample.env "115.0" true None)
  ∧ resolve (Sample.env "115.0" true None)
      [unpack_cwd (Sample.env "115.0" true None); ".dotbuild"; "engines";
       archive_name "115.0"]
    = archive_path (Sample.env "115.0" true None) "115.0"
  ∧ last (tar_args (Sample.env "115.0" true None) (archive_name "115.0"))
    = Some (show_path (archive_path (Sample.env "115.0" true None) "115.0")).
Proof.
  apply (unpack_reads_downloaded_archive (Sample.env "115.0" true None) "115.0").
  discriminate.
Defined.

Lemma split_app_any (sep : ascii) (a b : string) :
  split sep (a +:+ String sep b) = split sep a ++ split sep b.
Proof.
  induction a as [|c a IH].
  - rewrite app_empty_l. simpl. by rewrite decide_True.
  - rewrite app_cons. simpl. destruct (decide (c = sep)); [by rewrite IH|].
    rewrite IH.
    destruct (split sep a) as [|w ws] eqn:E; [by apply split_nonempty in E|done].
Qed.

Lemma forEach_app {A} (f : A → M unit) (l1 l2 : list A) (w : world) :
  forEach f (l1 ++ l2) w = (forEach f l1 ;; forEach f l2) w.
Proof.
  revert w. induction l1 as [|x l1 IH]; intros w; [done|].
  simpl. unfold mbind, M_bind in *. destruct (f x w) as [[[]|e|c] w1]; [|done..].
  apply IH.
Qed.

(** X3: a chunk that is two chunks with a line feed between them has the
    effect of the two chunks one after the other: where the stream is cut
    makes no difference as long as it is cut at a line feed. *)
Theorem onData_chunks (a b : string) (w : world) :
  onData (a +:+ nl +:+ b) w = (onData a ;; onData b) w.
Proof.
  unfold onData, nl. rewrite app_cons, app_empty_l, split_app_any.
  apply forEach_app.
Qed.

Lemma onData_run (data : string) (w : world) :
  ∃ t, onData data w = (Ret tt, with_progress w t).
Proof.
  unfold onData. rewrite forEach_onLine, fold_with_progress.
  destruct (last _) as [l|]; [by eexists|].
  exists (initProgressText w). by destruct w.
Qed.

Lemma forEach_onData_run (chunks : list string) (w : world) :
  ∃ t, forEach onData chunks w = (Ret tt, with_progress w t).
Proof.
  revert w. induction chunks as [|c chunks IH]; intros w.
  - exists (initProgressText w). by destruct w.
  - destruct (onData_run c w) as [t Ht].
    destruct (IH (with_progress w t)) as [t' Ht'].
    exists t'. simpl. erewrite run_bind by exact Ht. by rewrite Ht'.
Qed.

(** The run of the steps before [tar]: the trace gets the start of the
    spinner, and the engine directory is there. *)
Lemma unpack_prepare_run (env : Env) (w : world) :
  initProgress w = true →
  creatable (engine_path env) (fs w) = true →
  ∃ m1,
    unpack_prepare env w =
      (Ret tt, with_fs (with_progress (with_event w SpinnerStart)
                          "Unpacking Firefox...") m1)
    ∧ m1 !! engine_path env = Some Dir.
Proof.
  intros Hspin Hok. unfold unpack_prepare. fold (engine_path env).
  erewrite run_bind by (by apply spinner_start_run).
  erewrite run_bind by reflexivity.
  destruct (try_rmdir_run (engine_path env)
              (with_progress (with_event w SpinnerStart) "Unpacking Firefox..."))
    as (m0 & Hrm & Hm0).
  erewrite run_bind by exact Hrm. simpl in Hm0.
  destruct (mkdirp_succeeds (engine_path env) [] m0) as [m1 Hmk].
  { intros q content _ Hq. destruct Hm0 as [-> | [-> _]].
    - by eapply creatable_prefix.
    - intros H. apply lookup_delete_Some in H as [_ H].
      by eapply creatable_prefix. }
  exists m1. split; [|apply (mkdirp_lookup_target _ [] _ _ Hmk)].
  unfold ensureDirSync, get_fs. unfold mbind, M_bind. simpl. by rewrite Hmk.
Qed.

(** X4: with the spinner still there and the engine directory one that can
    be made, [unpackFirefoxSource] ends with the progress text empty and the
    spinner gone, whatever [tar] has printed; it has started one process,
    [tar], on files where the engine directory exists, and the files are
    what [tar] left. *)
Theorem unpackFirefoxSource_end_state (env : Env) (name : string) (w : world) :
  initProgress w = true →
  creatable (engine_path env) (fs w) = true →
  ∃ w' m1,
    unpackFirefoxSource env name w = (Ret tt, w')
    ∧ initProgressText w' = ""
    ∧ initProgress w' = false
    ∧ progress_tick w' = None
    ∧ trace w' = trace w ++ [SpinnerStart; Spawn "tar" (tar_args env name); SpinnerStop]
    ∧ m1 !! engine_path env = Some Dir
    ∧ fs w' = (tar env (tar_args env name) m1).1.
Proof.
  intros Hspin Hok.
  destruct (unpack_prepare_run env w Hspin Hok) as (m1 & Hprep & Hdir).
  unfold unpackFirefoxSource. erewrite run_bind by exact Hprep.
  unfold unpack_run. erewrite run_bind by apply emit_run.
  erewrite run_bind by reflexivity. erewrite run_bind by reflexivity.
  match goal with |- context [(forEach onData ?cs ≫= _) ?w0] =>
    destruct (forEach_onData_run cs w0) as [t Ht] end.
  erewrite run_bind by exact Ht.
  erewrite run_bind by reflexivity.
  erewrite run_bind by (by apply spinner_stop_run).
  eexists _, m1. split_and!; try reflexivity; try done.
  simpl. by rewrite <- !app_assoc.
Qed.

Lemma unpackFirefoxSource_end_state_witness :
  ∃ w' m1,
    unpackFirefoxSource (Sample.env "115.0" true None) "firefox-115.0.source.tar.xz"
      Sample.with_engine = (Ret tt, w')
    ∧ initProgressText w' = ""
    ∧ initProgress w' = false
    ∧ progress_tick w' = None
    ∧ trace w' =
        trace Sample.with_engine ++
        [SpinnerStart;
         Spawn "tar" (tar_args (Sample.env "115.0" true None)
                        "firefox-115.0.source.tar.xz");
         SpinnerStop]
    ∧ m1 !! engine_path (Sample.env "115.0" true None) = Some Dir
    ∧ fs w' = (tar (Sample.env "115.0" true None)
                 (tar_args (Sample.env "115.0" true None)
                    "firefox-115.0.source.tar.xz") m1).1.
Proof.
  apply (unpackFirefoxSource_end_state (Sample.env "115.0" true None)
           "firefox-115.0.source.tar.xz" Sample.with_engine).
  - reflexivity.
  - vm_compute. reflexivity.
Defined.

(** X24: once the spinner is [null], as [unpackFirefoxSource] leaves it, a
    further [unpackFirefoxSource] throws at [initProgress.start()]: the
    progress text, the engine directory and the files are as they were, and
    no [tar] is started. *)
Theorem unpackFirefoxSource_spinner_gone (env : Env) (name : string) (w : world) :
  initProgress w = false →
  unpackFirefoxSource env name w = (Throw (TypeError "start"), w).
Proof.
  intros Hnull. unfold unpackFirefoxSource, unpack_prepare.
  unfold mbind, M_bind. by rewrite spinner_start_null.
Qed.

Lemma unpackFirefoxSource_spinner_gone_witness :
  unpackFirefoxSource (Sample.env "115.0" true None) "firefox-115.0.source.tar.xz"
    (unpackFirefoxSource (Sample.env "115.0" true None) "firefox-115.0.source.tar.xz"
       Sample.fresh).2
  = (Throw (TypeError "start"),
     (unpackFirefoxSource (Sample.env "115.0" true None) "firefox-115.0.source.tar.xz"
        Sample.fresh).2).
Proof.
  apply (unpackFirefoxSource_spinner_gone (Sample.env "115.0" true None)
           "firefox-115.0.source.tar.xz").
  vm_compute. reflexivity.
Defined.

(** X5: when neither check finds anything, [downloadFirefoxSource] logs,
    fetches the archive of the version and stores it under its name in the
    archive directory, which it has made; a failed transfer is thrown on and
    leaves no file.  The beta advisory is the only other thing logged. *)
Theorem downloadFirefoxSource_stores_archive
    (env : Env) (version : string) (w : world) :
  is_Some (mkdirp [] (engines_dir env) (fs w)) →
  prepared env w !! version_dir env version = None →
  prepared env w !! engine_path env = None →
  ∃ w',
    downloadFirefoxSource env version w =
      (match network env (download_url version) with
       | Some _ => Ret (archive_name version)
       | None => Throw (FetchError (download_url version))
       end, w')
    ∧ fs w' =
        match network env (download_url version) with
        | Some body => <[archive_path env version := File body]> (prepared env w)
        | None => prepared env w
        end
    ∧ trace w' =
        trace w ++ [Log Info ("Locating Firefox release " +:+ version +:+ "...")]
        ++ (if includes "b" version then [beta_advisory] else [])
        ++ [Log Info ("Downloading Firefox release " +:+ version +:+ "...");
            Download (download_url version) (archive_path env version)].
Proof.
  intros [m1 Hmk] Hv He. unfold prepared in *. rewrite Hmk in *. simpl in Hv, He.
  unfold engine_path in He.
  unfold downloadFirefoxSource. unfold_run. simpl.
  fold (engines_dir env). rewrite Hmk. simpl.
  fold (download_url version) (archive_name version) (archive_path env version)
    beta_advisory.
  rewrite (is_Some_false _ Hv). simpl.
  destruct (includes "b" version); simpl; rewrite (is_Some_false _ He);
    destruct (network env (download_url version)); simpl;
    eexists; (split_and!; [reflexivity | reflexivity | trace_eq]).
Qed.

Lemma downloadFirefoxSource_stores_archive_witness :
  ∃ w',
    downloadFirefoxSource Cases.env_offline "115.0" Sample.fresh =
      (match network Cases.env_offline (download_url "115.0") with
       | Some _ => Ret (archive_name "115.0")
       | None => Throw (FetchError (download_url "115.0"))
       end, w')
    ∧ fs w' =
        match network Cases.env_offline (download_url "115.0") with
        | Some body =>
            <[archive_path Cases.env_offline "115.0" := File body]>
              (prepared Cases.env_offline Sample.fresh)
        | None => prepared Cases.env_offline Sample.fresh
        end
    ∧ trace w' =
        trace Sample.fresh ++ [Log Info ("Locating Firefox release " +:+ "115.0" +:+ "...")]
        ++ (if includes "b" "115.0" then [beta_advisory] else [])
        ++ [Log Info ("Downloading Firefox release " +:+ "115.0" +:+ "...");
            Download (download_url "115.0") (archive_path Cases.env_offline "115.0")].
Proof.
  apply (downloadFirefoxSource_stores_archive Cases.env_offline "115.0" Sample.fresh).
  - compute_done.
  - vm_compute. reflexivity.
  - vm_compute. reflexivity.
Defined.

(** X6: with [log.error] throwing, a directory of the version under the
    archive directory stops [downloadFirefoxSource] at once: the error names
    the version without its suffix, the beta advisory is not logged, the
    workspace is not looked at and nothing is fetched; the archive directory
    has been made all the same. *)
Theorem downloadFirefoxSource_version_refusal
    (env : Env) (version : string) (w : world) :
  log_error_throws env = true →
  is_Some (mkdirp [] (engines_dir env) (fs w)) →
  is_Some (prepared env w !! version_dir env version) →
  ∃ w',
    downloadFirefoxSource env version w =
      (Throw (Error (version_exists_message env version)), w')
    ∧ fs w' = prepared env w
    ∧ trace w' =
        trace w ++ [Log Info ("Locating Firefox release " +:+ version +:+ "...");
                    Log Err (version_exists_message env version)].
Proof.
  intros Hthrows [m1 Hmk] Hv. unfold prepared in *. rewrite Hmk in *. simpl in Hv.
  unfold downloadFirefoxSource. unfold_run. simpl.
  fold (engines_dir env). rewrite Hmk. simpl.
  rewrite (is_Some_true _ Hv), Hthrows. simpl.
  eexists. split_and!; [reflexivity | reflexivity | trace_eq].
Qed.

Lemma downloadFirefoxSource_version_refusal_witness :
  ∃ w',
    downloadFirefoxSource (Sample.env "115.0b4" true None) "115.0b4"
      Sample.with_version =
      (Throw (Error (version_exists_message (Sample.env "115.0b4" true None)
                       "115.0b4")), w')
    ∧ fs w' = prepared (Sample.env "115.0b4" true None) Sample.with_version
    ∧ trace w' =
        trace Sample.with_version
        ++ [Log Info ("Locating Firefox release " +:+ "115.0b4" +:+ "...");
            Log Err (version_exists_message (Sample.env "115.0b4" true None)
                       "115.0b4")].
Proof.
  apply (downloadFirefoxSource_version_refusal (Sample.env "115.0b4" true None)
           "115.0b4" Sample.with_version).
  - reflexivity.
  - compute_done.
  - compute_done.
Defined.

(** X7: with [log.error] throwing and no directory of the version, an engine
    workspace that exists stops [downloadFirefoxSource] after the beta
    advisory, if the version calls for one, and before anything is fetched;
    the archive directory has been made all the same. *)
Theorem downloadFirefoxSource_workspace_refusal
    (env : Env) (version : string) (w : world) :
  log_error_throws env = true →
  is_Some (mkdirp [] (engines_dir env) (fs w)) →
  prepared env w !! version_dir env version = None →
  is_Some (prepared env w !! engine_path env) →
  ∃ w',
    downloadFirefoxSource env version w =
      (Throw (Error (workspace_exists_message env version)), w')
    ∧ fs w' = prepared env w
    ∧ trace w' =
        trace w ++ [Log Info ("Locating Firefox release " +:+ version +:+ "...")]
        ++ (if includes "b" version then [beta_advisory] else [])
        ++ [Log Err (workspace_exists_message env version)].
Proof.
  intros Hthrows [m1 Hmk] Hv He. unfold prepared in *. rewrite Hmk in *.
  simpl in Hv, He. unfold engine_path in He.
  unfold downloadFirefoxSource. unfold_run. simpl.
  fold (engines_dir env). rewrite Hmk. simpl.
  fold beta_advisory.
  rewrite (is_Some_false _ Hv). simpl.
  destruct (includes "b" version); simpl; rewrite (is_Some_true _ He), Hthrows;
    simpl; eexists; (split_and!; [reflexivity | reflexivity | trace_eq]).
Qed.

Lemma downloadFirefoxSource_workspace_refusal_witness :
  ∃ w',
    downloadFirefoxSource (Sample.env "116.0b3" true None) "116.0b3"
      Sample.with_engine =
      (Throw (Error (workspace_exists_message (Sample.env "116.0b3" true None)
                       "116.0b3")), w')
    ∧ fs w' = prepared (Sample.env "116.0b3" true None) Sample.with_engine
    ∧ trace w' =
        trace Sample.with_engine
        ++ [Log Info ("Locating Firefox release " +:+ "116.0b3" +:+ "...")]
        ++ (if includes "b" "116.0b3" then [beta_advisory] else [])
        ++ [Log Err (workspace_exists_message (Sample.env "116.0b3" true None)
                       "116.0b3")].
Proof.
  apply (downloadFirefoxSource_workspace_refusal (Sample.env "116.0b3" true None)
           "116.0b3" Sample.with_engine).
  - reflexivity.
  - compute_done.
  - vm_compute. reflexivity.
  - compute_done.
Defined.

(** X8: without a version in the configuration, or with an empty one,
    [download] logs the error and stops, by the exception of [log.error] or
    else with exit code 1; it has set its timer, and touched no file and
    started no transfer. *)
Theorem download_without_version (env : Env) (w : world) :
  version_given env = false →
  download env w =
    (if log_error_throws env then Throw (Error version_missing_message) else Exit 1,
     with_event (with_event w (SetInterval 100)) (Log Err version_missing_message)).
Proof.
  unfold version_given, download. intros Hv.
  destruct (gFFVersion env) as [[|c v]|]; [|done|];
    unfold log_error; unfold_run; simpl; by destruct (log_error_throws env).
Qed.

Lemma download_without_version_witness :
  download (Cases.env_no_version false) Sample.fresh =
    (if log_error_throws (Cases.env_no_version false)
     then Throw (Error version_missing_message) else Exit 1,
     with_event (with_event Sample.fresh (SetInterval 100))
       (Log Err version_missing_message)).
Proof.
  apply (download_without_version (Cases.env_no_version false) Sample.fresh).
  reflexivity.
Defined.

(** ** What the commands may and may not do *)

#[local] Instance grows_preorder (P : event → Prop) : PreOrder (grows P).
Proof.
  split.
  - intros w. exists []. by rewrite app_nil_r.
  - intros w1 w2 w3 (evs1 & H1 & HP1) (evs2 & H2 & HP2).
    exists (evs1 ++ evs2). rewrite H2, H1, <- app_assoc. split; [done|].
    by apply Forall_app.
Qed.

#[local] Instance frames_preorder (S : path → Prop) : PreOrder (frames S).
Proof.
  split.
  - by intros w q _.
  - intros w1 w2 w3 H1 H2 q Hq. by rewrite (H2 q Hq), (H1 q Hq).
Qed.

Section KeepsLaws.
Context (R : world → world → Prop) `{!PreOrder R}.

Lemma keeps_ret {A} (a : A) : keeps R (mret a).
Proof. intros w. simpl. reflexivity. Qed.

Lemma keeps_throw {A} (e : error) : keeps R (throw (A:=A) e).
Proof. intros w. simpl. reflexivity. Qed.

Lemma keeps_exit {A} (c : nat) : keeps R (exit (A:=A) c).
Proof. intros w. simpl. reflexivity. Qed.

Lemma keeps_get_fs : keeps R get_fs.
Proof. intros w. simpl. reflexivity. Qed.

Lemma keeps_bind {A B} (m : M A) (k : A → M B) :
  keeps R m → (∀ a, keeps R (k a)) → keeps R (m ≫= k).
Proof.
  intros Hm Hk w. unfold mbind, M_bind. specialize (Hm w).
  destruct (m w) as [[a|e|c] w1]; simpl in *; [|done..].
  etrans; [exact Hm | apply Hk].
Qed.

Lemma keeps_try_catch {A} (m : M A) (h : error → M A) :
  keeps R m → (∀ e, keeps R (h e)) → keeps R (try_catch m h).
Proof.
  intros Hm Hh w. unfold try_catch. specialize (Hm w).
  destruct (m w) as [[a|e|c] w1]; simpl in *; [done| |done].
  etrans; [exact Hm | apply Hh].
Qed.

Lemma keeps_when (b : bool) (m : M unit) : keeps R m → keeps R (when b m).
Proof. intros Hm. destruct b; [done | apply keeps_ret]. Qed.

Lemma keeps_forEach {A} (f : A → M unit) (l : list A) :
  (∀ x, keeps R (f x)) → keeps R (forEach f l).
Proof.
  intros Hf. induction l as [|x l IH]; [apply keeps_ret|].
  simpl. apply keeps_bind; [apply Hf | by intros _].
Qed.

(** A step that leaves the state alone but for what [R] does not see. *)
Lemma keeps_same {A} (m : M A) : (∀ w, R w (m w).2) → keeps R m.
Proof. done. Qed.
End KeepsLaws.

Section ExitsLaws.
Context (E : nat → world → Prop).

Lemma exits_ret {A} (a : A) : exits E (mret a).
Proof. by intros w c. Qed.

Lemma exits_throw {A} (e : error) : exits E (throw (A:=A) e).
Proof. by intros w c. Qed.

Lemma exits_bind {A B} (m : M A) (k : A → M B) :
  exits E m → (∀ a, exits E (k a)) → exits E (m ≫= k).
Proof.
  intros Hm Hk w c. unfold mbind, M_bind. specialize (Hm w).
  destruct (m w) as [[a|e|c'] w1]; simpl in *; [apply Hk|done|].
  intros [= <-]. by apply Hm.
Qed.

Lemma exits_try_catch {A} (m : M A) (h : error → M A) :
  exits E m → (∀ e, exits E (h e)) → exits E (try_catch m h).
Proof.
  intros Hm Hh w c. unfold try_catch. specialize (Hm w).
  destruct (m w) as [[a|e|c'] w1]; simpl in *; [done|apply Hh|].
  intros [= <-]. by apply Hm.
Qed.

Lemma exits_when (b : bool) (m : M unit) : exits E m → exits E (when b m).
Proof. intros Hm. destruct b; [done | apply exits_ret]. Qed.

Lemma exits_forEach {A} (f : A → M unit) (l : list A) :
  (∀ x, exits E (f x)) → exits E (forEach f l).
Proof.
  intros Hf. induction l as [|x l IH]; [apply exits_ret|].
  simpl. apply exits_bind; [apply Hf | by intros _].
Qed.

(** A step without [exit] in it. *)
Lemma exits_never {A} (m : M A) :
  (∀ w c, (m w).1 ≠ Exit c) → exits E m.
Proof. intros H w c Hc. by destruct (H w c). Qed.
End ExitsLaws.

(** The value of the first command may be used for the second. *)
Lemma keeps_bind_post {A B} (R : world → world → Prop) `{!PreOrder R}
    (Q : A → Prop) (m : M A) (k : A → M B) :
  keeps R m → returns Q m → (∀ a, Q a → keeps R (k a)) → keeps R (m ≫= k).
Proof.
  intros Hm HQ Hk w. unfold mbind, M_bind. specialize (Hm w). specialize (HQ w).
  destruct (m w) as [[a|e|c] w1]; simpl in *; [|done..].
  etrans; [exact Hm | by apply Hk, HQ].
Qed.

Lemma exits_bind_post {A B} (E : nat → world → Prop) (Q : A → Prop)
    (m : M A) (k : A → M B) :
  exits E m → returns Q m → (∀ a, Q a → exits E (k a)) → exits E (m ≫= k).
Proof.
  intros Hm HQ Hk w c. unfold mbind, M_bind. specialize (Hm w). specialize (HQ w).
  destruct (m w) as [[a|e|c'] w1]; simpl in *; [by apply Hk, HQ|done|].
  intros [= <-]. by apply Hm.
Qed.

Lemma returns_ret {A} (Q : A → Prop) (a : A) : Q a → returns Q (mret a).
Proof. by intros HQ w a' [= <-]. Qed.

Lemma returns_bind {A B} (Q : B → Prop) (m : M A) (k : A → M B) :
  (∀ a, returns Q (k a)) → returns Q (m ≫= k).
Proof.
  intros Hk w b. unfold mbind, M_bind.
  destruct (m w) as [[a|e|c] w1]; simpl; [apply Hk|done..].
Qed.

Lemma grows_mono {A} (P Q : event → Prop) (m : M A) :
  (∀ e, P e → Q e) → keeps (grows P) m → keeps (grows Q) m.
Proof.
  intros HPQ Hm w. destruct (Hm w) as (evs & Htrace & HP).
  exists evs. split; [done|]. eapply Forall_impl; [exact HP | exact HPQ].
Qed.

Lemma grows_emit (P : event → Prop) (e : event) : P e → keeps (grows P) (emit e).
Proof. intros HP w. exists [e]. split; [done | by constructor]. Qed.

(** A step that does not log or start anything. *)
Lemma grows_quiet {A} (P : event → Prop) (m : M A) :
  (∀ w, trace (m w).2 = trace w) → keeps (grows P) m.
Proof. intros H w. exists []. by rewrite app_nil_r, H. Qed.

Lemma frames_still {A} (S : path → Prop) (m : M A) :
  (∀ w, fs (m w).2 = fs w) → keeps (frames S) m.
Proof. intros H w q _. by rewrite H. Qed.

Ltac run_cases :=
  intros; unfold existsSync, ensureDirSync, rmdirSync, removeSync, readFileSync,
    writeFileSync, set_fs, set_initProgressText, set_initProgress, get_fs;
  unfold mbind, M_bind, mret, M_ret, throw; simpl;
  repeat case_match; simplify_eq/=; done.

Lemma existsSync_quiet (p : path) (w : world) : trace (existsSync p w).2 = trace w.
Proof. run_cases. Qed.

Lemma ensureDirSync_quiet (p : path) (w : world) : trace (ensureDirSync p w).2 = trace w.
Proof. run_cases. Qed.

Lemma rmdirSync_quiet (p : path) (w : world) : trace (rmdirSync p w).2 = trace w.
Proof. run_cases. Qed.

Lemma removeSync_quiet (p : path) (w : world) : trace (removeSync p w).2 = trace w.
Proof. run_cases. Qed.

Lemma readFileSync_quiet (p : path) (w : world) : trace (readFileSync p w).2 = trace w.
Proof. run_cases. Qed.

Lemma writeFileSync_quiet (p : path) (data : string) (w : world) :
  trace (writeFileSync p data w).2 = trace w.
Proof. run_cases. Qed.

Lemma existsSync_no_exit (p : path) (w : world) (c : nat) : (existsSync p w).1 ≠ Exit c.
Proof. run_cases. Qed.

Lemma ensureDirSync_no_exit (p : path) (w : world) (c : nat) :
  (ensureDirSync p w).1 ≠ Exit c.
Proof. run_cases. Qed.

Lemma rmdirSync_no_exit (p : path) (w : world) (c : nat) : (rmdirSync p w).1 ≠ Exit c.
Proof. run_cases. Qed.

Lemma removeSync_no_exit (p : path) (w : world) (c : nat) : (removeSync p w).1 ≠ Exit c.
Proof. run_cases. Qed.

Lemma readFileSync_no_exit (p : path) (w : world) (c : nat) :
  (readFileSync p w).1 ≠ Exit c.
Proof. run_cases. Qed.

Lemma writeFileSync_no_exit (p : path) (data : string) (w : world) (c : nat) :
  (writeFileSync p data w).1 ≠ Exit c.
Proof. run_cases. Qed.

Lemma emit_no_exit (e : event) (w : world) (c : nat) : (emit e w).1 ≠ Exit c.
Proof. done. Qed.

Lemma set_fs_no_exit (m : gmap path node) (w : world) (c : nat) :
  (set_fs m w).1 ≠ Exit c.
Proof. done. Qed.

Lemma set_initProgressText_no_exit (t : string) (w : world) (c : nat) :
  (set_initProgressText t w).1 ≠ Exit c.
Proof. done. Qed.

Lemma set_initProgress_no_exit (b : bool) (w : world) (c : nat) :
  (set_initProgress b w).1 ≠ Exit c.
Proof. done. Qed.

Lemma get_fs_no_exit (w : world) (c : nat) : (get_fs w).1 ≠ Exit c.
Proof. done. Qed.

Lemma spinner_start_grows (P : event → Prop) :
  P SpinnerStart → keeps (grows P) spinner_start.
Proof.
  intros HP w. unfold spinner_start. destruct (initProgress w); simpl.
  - exists [SpinnerStart]. split; [done | by constructor].
  - exists []. split; [by rewrite app_nil_r | constructor].
Qed.

Lemma spinner_stop_grows (P : event → Prop) :
  P SpinnerStop → keeps (grows P) spinner_stop.
Proof.
  intros HP w. unfold spinner_stop. destruct (initProgress w); simpl.
  - exists [SpinnerStop]. split; [done | by constructor].
  - exists []. split; [by rewrite app_nil_r | constructor].
Qed.

Lemma spinner_start_no_exit (w : world) (c : nat) : (spinner_start w).1 ≠ Exit c.
Proof. unfold spinner_start. by destruct (initProgress w). Qed.

Lemma spinner_stop_no_exit (w : world) (c : nat) : (spinner_stop w).1 ≠ Exit c.
Proof. unfold spinner_stop. by destruct (initProgress w). Qed.

(** One step down the structure of a command, for [keeps]. *)
Ltac keeps_step :=
  lazymatch goal with
  | |- keeps _ (match ?x with _ => _ end) => destruct x
  | |- keeps _ (_ ≫= _) => refine (keeps_bind _ _ _ _ _); [|intros ?]
  | |- keeps _ (mret _) => refine (keeps_ret _ _)
  | |- keeps _ (throw _) => refine (keeps_throw _ _)
  | |- keeps _ (exit _) => refine (keeps_exit _ _)
  | |- keeps _ get_fs => refine (keeps_get_fs _)
  | |- keeps _ (when _ _) => refine (keeps_when _ _ _ _)
  | |- keeps _ (forEach _ _) => refine (keeps_forEach _ _ _ _); intros ?
  | |- keeps _ (try_catch _ _) => refine (keeps_try_catch _ _ _ _ _); [|intros ?]
  end.

(** The steps that do not log, for [grows]. *)
Ltac grows_prim :=
  lazymatch goal with
  | |- keeps (grows _) (existsSync _) => apply grows_quiet, existsSync_quiet
  | |- keeps (grows _) (ensureDirSync _) => apply grows_quiet, ensureDirSync_quiet
  | |- keeps (grows _) (rmdirSync _) => apply grows_quiet, rmdirSync_quiet
  | |- keeps (grows _) (removeSync _) => apply grows_quiet, removeSync_quiet
  | |- keeps (grows _) (readFileSync _) => apply grows_quiet, readFileSync_quiet
  | |- keeps (grows _) (writeFileSync _ _) => apply grows_quiet, writeFileSync_quiet
  | |- keeps (grows _) (set_fs _) => by apply grows_quiet
  | |- keeps (grows _) (set_initProgressText _) => by apply grows_quiet
  | |- keeps (grows _) (set_initProgress _) => by apply grows_quiet
  | |- keeps (grows _) (emit _) => apply grows_emit
  | |- keeps (grows _) spinner_start => apply spinner_start_grows
  | |- keeps (grows _) spinner_stop => apply spinner_stop_grows
  | |- keeps (grows _) (log_info _) => apply grows_emit
  | |- keeps (grows _) (log_warning _) => apply grows_emit
  | |- keeps (grows _) (log_debug _) => apply grows_emit
  | |- keeps (grows _) (log_success _) => apply grows_emit
  end.

Ltac grows_auto := repeat first [grows_prim | keeps_step].

(** One step down the structure of a command, for [exits]. *)
Ltac exits_step :=
  lazymatch goal with
  | |- exits _ (match ?x with _ => _ end) => destruct x
  | |- exits _ (_ ≫= _) => apply exits_bind; [|intros ?]
  | |- exits _ (mret _) => apply exits_ret
  | |- exits _ (throw _) => apply exits_throw
  | |- exits _ (when _ _) => apply exits_when
  | |- exits _ (forEach _ _) => apply exits_forEach; intros ?
  | |- exits _ (try_catch _ _) => apply exits_try_catch; [|intros ?]
  | |- exits _ (existsSync _) => apply exits_never, existsSync_no_exit
  | |- exits _ (ensureDirSync _) => apply exits_never, ensureDirSync_no_exit
  | |- exits _ (rmdirSync _) => apply exits_never, rmdirSync_no_exit
  | |- exits _ (removeSync _) => apply exits_never, removeSync_no_exit
  | |- exits _ (readFileSync _) => apply exits_never, readFileSync_no_exit
  | |- exits _ (writeFileSync _ _) => apply exits_never, writeFileSync_no_exit
  | |- exits _ (set_fs _) => apply exits_never, set_fs_no_exit
  | |- exits _ (set_initProgressText _) => apply exits_never, set_initProgressText_no_exit
  | |- exits _ (set_initProgress _) => apply exits_never, set_initProgress_no_exit
  | |- exits _ get_fs => apply exits_never, get_fs_no_exit
  | |- exits _ (emit _) => apply exits_never, emit_no_exit
  | |- exits _ spinner_start => apply exits_never, spinner_start_no_exit
  | |- exits _ spinner_stop => apply exits_never, spinner_stop_no_exit
  | |- exits _ (log_info _) => apply exits_never, emit_no_exit
  | |- exits _ (log_warning _) => apply exits_never, emit_no_exit
  | |- exits _ (log_debug _) => apply exits_never, emit_no_exit
  | |- exits _ (log_success _) => apply exits_never, emit_no_exit
  end.

Ltac exits_auto := repeat exits_step.

Lemma log_error_grows (P : event → Prop) (env : Env) (msg : string) :
  P (Log Err msg) → keeps (grows P) (log_error env msg).
Proof. intros HP. unfold log_error. grows_auto. exact HP. Qed.

Lemma log_error_exits (E : nat → world → Prop) (env : Env) (msg : string) :
  exits E (log_error env msg).
Proof. unfold log_error. exits_auto. Qed.

Lemma downloadFirefoxSource_grows (env : Env) (version : string) :
  keeps (grows (fetch_event env version)) (downloadFirefoxSource env version).
Proof.
  unfold downloadFirefoxSource, downloadFileToLocation. cbv zeta.
  grows_auto; try done; by apply log_error_grows.
Qed.

Lemma downloadFirefoxSource_exits (E : nat → world → Prop) (env : Env)
    (version : string) :
  exits E (downloadFirefoxSource env version).
Proof.
  unfold downloadFirefoxSource, downloadFileToLocation. cbv zeta.
  exits_auto; apply log_error_exits.
Qed.

Lemma downloadFirefoxSource_returns (env : Env) (version : string) :
  returns (λ name, name = archive_name version) (downloadFirefoxSource env version).
Proof.
  unfold downloadFirefoxSource. cbv zeta.
  repeat (apply returns_bind; intros ?). by apply returns_ret.
Qed.

Lemma onData_grows (P : event → Prop) (data : string) : keeps (grows P) (onData data).
Proof. unfold onData, onLine. grows_auto. Qed.

Lemma onData_exits (E : nat → world → Prop) (data : string) : exits E (onData data).
Proof. unfold onData, onLine. exits_auto. Qed.

Lemma unpackFirefoxSource_grows (env : Env) (name : string) :
  keeps (grows (unpack_event env name)) (unpackFirefoxSource env name).
Proof.
  unfold unpackFirefoxSource, unpack_prepare, unpack_run.
  grows_auto; try done. apply onData_grows.
Qed.

Lemma unpackFirefoxSource_exits (E : nat → world → Prop) (env : Env) (name : string) :
  exits E (unpackFirefoxSource env name).
Proof.
  unfold unpackFirefoxSource, unpack_prepare, unpack_run.
  exits_auto. apply onData_exits.
Qed.

(** The part of [download] that reads the version. *)
Lemma version_block_returns (env : Env) (v : string) (msg : string) :
  returns (λ a, a = v ∧ v ≠ "")
    (if decide (v = "") then log_error env msg ;; exit 1 else mret v).
Proof.
  destruct (decide (v = "")) as [->|Hv]; [|by apply returns_ret].
  intros w a. unfold log_error. unfold_run. simpl.
  by destruct (log_error_throws env).
Qed.

(** X9: all that [download] logs and starts for the version of the
    configuration is: its timer of 100 ms, log lines, the spinner, the one
    transfer of the archive of that version to its place in the archive
    directory, [tar] on that archive, the artifacts on Windows only, and the
    initialiser, the blank line and the metadata only when the initialiser
    is not switched off. *)
Theorem download_events (env : Env) (version : string) :
  gFFVersion env = Some version →
  keeps (grows (download_event env version)) (download env).
Proof.
  intros Hv. unfold download. rewrite Hv.
  refine (keeps_bind _ _ _ _ _); [by apply grows_emit | intros _].
  refine (keeps_bind_post _ _ _ _ _ (version_block_returns env version _) _).
  { destruct (decide (version = "")); grows_auto. by apply log_error_grows. }
  intros a [-> Hne].
  refine (keeps_bind_post _ _ _ _ _ (downloadFirefoxSource_returns env version) _).
  { eapply grows_mono; [|apply downloadFirefoxSource_grows].
    by intros [| | | | | | | |]. }
  intros name ->.
  refine (keeps_bind _ _ _ _ _).
  { eapply grows_mono; [|apply unpackFirefoxSource_grows].
    intros [| | | | | | | |]; simpl; try done. by left. }
  intros _. refine (keeps_bind _ _ _ _ _).
  { destruct (bool_decide (platform env = "win32")) eqn:Hwin;
      [|apply keeps_ret; apply _].
    apply bool_decide_eq_true in Hwin. unfold when. grows_auto; done. }
  intros _. unfold init_exit, download_event, init_enabled, init_spawn.
  destruct (CI_SKIP_INIT env) as [[|c s]|]; grows_auto; try done.
  all: by right.
Qed.

Lemma download_events_witness :
  keeps (grows (download_event (Cases.env_on "linux" (Some "1")) "115.0"))
    (download (Cases.env_on "linux" (Some "1"))).
Proof.
  apply (download_events (Cases.env_on "linux" (Some "1")) "115.0").
  reflexivity.
Defined.

Lemma init_exit_run (env : Env) (name : string) (w : world) :
  ∃ w',
    init_exit env name w = (Exit 0, w')
    ∧ fs w' = remove_tree (resolve env [unpack_cwd env; ".dotbuild"; "engines"; name])
                (fs w)
    ∧ last (trace w') = Some WriteMetadata.
Proof.
  unfold init_exit, removeSync. unfold_run. simpl.
  eexists. split_and!; [reflexivity | reflexivity |].
  simpl. by rewrite last_snoc.
Qed.

Lemma remove_tree_lookup (p : path) (m : gmap path node) : remove_tree p m !! p = None.
Proof.
  unfold remove_tree. apply map_lookup_filter_None. right. intros x _ H.
  by apply H.
Qed.

(** X10: with a version in the configuration and an absolute working
    directory, [download] ends the process in one way only: with code 0,
    from the exit handler of the initialiser, which is then not switched
    off; the metadata is the last thing done before, and the downloaded
    archive is no longer among the files. *)
Theorem download_exit (env : Env) (version : string) :
  gFFVersion env = Some version → version ≠ "" →
  startsWith "/" (process_cwd env) = true →
  exits (download_end env version) (download env).
Proof.
  intros Hv Hne Habs. unfold download. rewrite Hv, decide_False by done.
  apply exits_bind; [exits_auto | intros _].
  apply (exits_bind_post _ (λ a, a = version));
    [exits_auto | by apply returns_ret |].
  intros a ->.
  apply (exits_bind_post _ _ _ _ (downloadFirefoxSource_exits _ env version)
           (downloadFirefoxSource_returns env version)).
  intros name ->.
  apply exits_bind; [apply unpackFirefoxSource_exits | intros _].
  apply exits_bind; [unfold when; exits_auto | intros _].
  unfold download_end, init_enabled.
  destruct (CI_SKIP_INIT env) as [[|c s]|]; exits_auto.
  all: intros w c Hc;
    destruct (init_exit_run env (archive_name version) w) as (w' & Hrun & Hfs & Hlast);
    rewrite Hrun in *; simpl in *; simplify_eq;
    rewrite Hfs, unpack_cwd_archive_path by done;
    split_and!; [done | done | apply remove_tree_lookup | done].
Qed.

Lemma download_exit_witness :
  exits (download_end (Cases.env_on "linux" None) "115.0")
    (download (Cases.env_on "linux" None)).
Proof.
  apply (download_exit (Cases.env_on "linux" None) "115.0").
  - reflexivity.
  - discriminate.
  - reflexivity.
Defined.

Lemma ensureDirSync_frames (S : path → Prop) (p : path) :
  (∀ q, q `prefix_of` p → S q) → keeps (frames S) (ensureDirSync p).
Proof.
  intros HS w q Hq. unfold ensureDirSync, get_fs, set_fs, throw.
  unfold mbind, M_bind. simpl.
  destruct (mkdirp [] p (fs w)) as [m'|] eqn:Hmk; simpl; [|done].
  apply (mkdirp_lookup_other _ _ _ _ _ Hmk). intros Hpre. by apply Hq, HS.
Qed.

Lemma writeFileSync_frames (S : path → Prop) (p : path) (data : string) :
  S p → keeps (frames S) (writeFileSync p data).
Proof.
  intros HS w q Hq. unfold writeFileSync, get_fs, set_fs, throw.
  unfold mbind, M_bind. simpl.
  assert (p ≠ q) by (by intros ->).
  repeat case_match; simplify_eq/=; try done; by rewrite lookup_insert_ne.
Qed.

Lemma downloadFileToLocation_frames (S : path → Prop) (env : Env)
    (url : string) (dest : path) :
  S dest → keeps (frames S) (downloadFileToLocation env url dest).
Proof.
  intros HS w q Hq. unfold downloadFileToLocation. unfold_run. simpl.
  assert (dest ≠ q) by (by intros ->).
  destruct (network env url); simpl; [by rewrite lookup_insert_ne | done].
Qed.

(** The steps that leave the files alone, for [frames]. *)
Ltac frames_prim :=
  lazymatch goal with
  | |- keeps (frames _) (existsSync _) => by apply frames_still
  | |- keeps (frames _) (readFileSync _) => apply frames_still; run_cases
  | |- keeps (frames _) (set_initProgressText _) => by apply frames_still
  | |- keeps (frames _) (set_initProgress _) => by apply frames_still
  | |- keeps (frames _) (emit _) => by apply frames_still
  | |- keeps (frames _) (log_info _) => by apply frames_still
  | |- keeps (frames _) (log_warning _) => by apply frames_still
  | |- keeps (frames _) (log_debug _) => by apply frames_still
  | |- keeps (frames _) (log_success _) => by apply frames_still
  | |- keeps (frames _) (log_error _ _) =>
      apply frames_still; intros ?; unfold log_error; unfold_run; simpl;
      by case_match
  end.

Ltac frames_auto := repeat first [frames_prim | keeps_step].

(** X22: an error of [downloadFirefoxSource] is the error of [download], in
    the state the fetch left: nothing is unpacked, no initialiser is started
    and the process is not ended. *)
Theorem download_fetch_error (env : Env) (version : string) (w : world) (e : error) :
  gFFVersion env = Some version → version ≠ "" →
  (downloadFirefoxSource env version (with_event w (SetInterval 100))).1 = Throw e →
  download env w =
    (Throw e, (downloadFirefoxSource env version (with_event w (SetInterval 100))).2).
Proof.
  intros Hv Hne Hthrow. unfold download. rewrite Hv, decide_False by done.
  erewrite run_bind by apply emit_run.
  erewrite run_bind by reflexivity.
  destruct (downloadFirefoxSource env version (with_event w (SetInterval 100)))
    as [o w1] eqn:Hrun.
  simpl in Hthrow. subst o. by erewrite run_bind_throw by exact Hrun.
Qed.

Lemma download_fetch_error_witness :
  download Cases.env_offline Sample.fresh =
    (Throw (FetchError (download_url "115.0")),
     (downloadFirefoxSource Cases.env_offline "115.0"
        (with_event Sample.fresh (SetInterval 100))).2).
Proof.
  apply (download_fetch_error Cases.env_offline "115.0" Sample.fresh).
  - reflexivity.
  - discriminate.
  - vm_compute. reflexivity.
Defined.

(** X11: whatever the outcome, [downloadFirefoxSource] changes no file but
    the archive of the version and the directories on the way to the archive
    directory: an engine workspace, or a directory of the version, that is
    there stays as it is. *)
Theorem downloadFirefoxSource_touches (env : Env) (version : string) :
  keeps (frames (λ q, q `prefix_of` engines_dir env ∨ q = archive_path env version))
    (downloadFirefoxSource env version).
Proof.
  unfold downloadFirefoxSource. cbv zeta. frames_auto.
  - apply ensureDirSync_frames. by left.
  - apply downloadFileToLocation_frames. by right.
Qed.

(** X12: whatever the outcome, [applyConfig] logs and starts nothing but log
    lines and the one [git rev-parse HEAD], changes no file but the
    [mozconfig] of the engine workspace, and never ends the process. *)
Theorem applyConfig_confined (env : Env) (os arch : string) :
  keeps (grows config_event) (applyConfig env os arch)
  ∧ keeps (frames (λ q, q = mozconfig_path env)) (applyConfig env os arch)
  ∧ exits (λ _ _, False) (applyConfig env os arch).
Proof.
  split_and!; unfold applyConfig, git_head, echo_line; cbv zeta.
  - grows_auto; done.
  - frames_auto. by apply writeFileSync_frames.
  - exits_auto.
Qed.

(** ** Further properties of the build command *)




(** In a project with neither fragment the path of the error is the one of
    the common fragment; with the common fragment alone, the one of the
    OS. *)
Example applyConfig_missing_sample :
  (applyConfig (Cases.env_on "linux" None) "linux" "x86_64" Sample.fresh).1
    = Throw (SystemError "ENOENT" ["work"; "configs"; "common"; "mozconfig"])
  ∧ (applyConfig (Cases.env_on "linux" None) "linux" "x86_64" Cases.with_common).1
    = Throw (SystemError "ENOENT" ["work"; "configs"; "linux"; "mozconfig"]).
Proof. split; vm_compute; reflexivity. Qed.

Lemma echo_line_result (l : string) (w : world) :
  echo_line l w =
    (Ret tt, if echoed l then with_event w (Log Info (echo_text l)) else w).
Proof. unfold echo_line, echoed, when. by case_match. Qed.

Lemma trace_foldl_with_event (evs : list event) (w : world) :
  trace (foldl with_event w evs) = trace w ++ evs
  ∧ fs (foldl with_event w evs) = fs w.
Proof.
  revert w. induction evs as [|e evs IH]; intros w; simpl.
  - by rewrite app_nil_r.
  - destruct (IH (with_event w e)) as [Ht Hf]. rewrite Ht, Hf. simpl.
    by rewrite <- app_assoc.
Qed.

Lemma forEach_echo_result (ls : list string) (w : world) :
  forEach echo_line ls w =
    (Ret tt, foldl with_event w
               (map (λ l, Log Info (echo_text l)) (List.filter echoed ls))).
Proof.
  revert w. induction ls as [|l ls IH]; intros w; [done|].
  simpl. erewrite run_bind by apply echo_line_result.
  rewrite IH. by destruct (echoed l).
Qed.

(** X14: after writing the file, [applyConfig] echoes the merged
    configuration: one log line for each of its lines that begins with [mk],
    [ac] or [export], in the order of the file, and none for any other line,
    so none for the comments and the blank lines. *)
Theorem applyConfig_echo
    (env : Env) (os arch : string) (w : world) (stdout common os_text : string) :
  git_rev_parse env = Some stdout →
  fs w !! common_path env = Some (File common) →
  fs w !! os_path env os arch = Some (File os_text) →
  fs w !! custom_path env ≠ Some Dir →
  fs w !! mozconfig_path env ≠ Some Dir →
  fs w !! removelast (mozconfig_path env) = Some Dir →
  ∃ w',
    applyConfig env os arch w = (Ret tt, w')
    ∧ trace w' =
        trace w
        ++ [Log Info "Applying mozconfig..."; Spawn "git" ["rev-parse"; "HEAD"];
            Log Info ("Config for this `" +:+ os +:+ "` build:")]
        ++ map (λ l, Log Info (echo_text l))
             (List.filter echoed
                (split LF
                   (mergedConfig
                      (stringTemplate common (options_in env w (trim stdout)))
                      (stringTemplate os_text (options_in env w (trim stdout)))
                      (stringTemplate (custom_fragment env w)
                         (options_in env w (trim stdout)))))).
Proof.
  intros Hgit Hcommon Hos Hcustom Htarget Hparent. unfold applyConfig.
  erewrite run_bind by apply emit_run.
  erewrite run_bind by (by apply git_success_run).
  erewrite run_bind by apply existsSync_run.
  erewrite run_bind by (by apply readFileSync_run).
  erewrite run_bind by (by apply readFileSync_run).
  erewrite run_bind by apply existsSync_run.
  erewrite run_bind by (by apply custom_config_run).
  erewrite run_bind by (by apply writeFileSync_run).
  erewrite run_bind by apply emit_run.
  rewrite forEach_echo_result. eexists. split; [reflexivity|].
  simpl. rewrite (proj1 (trace_foldl_with_event _ _)). simpl.
  unfold options_in. simpl. by rewrite <- !app_assoc.
Qed.

Lemma applyConfig_echo_witness :
  ∃ w',
    applyConfig (Sample.env "115.0" true (Some "0a1b2c")) "linux" "x86_64"
      Sample.with_configs = (Ret tt, w')
    ∧ trace w' =
        trace Sample.with_configs
        ++ [Log Info "Applying mozconfig..."; Spawn "git" ["rev-parse"; "HEAD"];
            Log Info ("Config for this `" +:+ "linux" +:+ "` build:")]
        ++ map (λ l, Log Info (echo_text l))
             (List.filter echoed
                (split LF
                   (mergedConfig
                      (stringTemplate "ac_add_options --with-app-name={{binName}}"
                         (options_in (Sample.env "115.0" true (Some "0a1b2c"))
                            Sample.with_configs (trim "0a1b2c")))
                      (stringTemplate "export MOZ_SOURCE_CHANGESET={{changeset}}"
                         (options_in (Sample.env "115.0" true (Some "0a1b2c"))
                            Sample.with_configs (trim "0a1b2c")))
                      (stringTemplate
                         (custom_fragment (Sample.env "115.0" true (Some "0a1b2c"))
                            Sample.with_configs)
                         (options_in (Sample.env "115.0" true (Some "0a1b2c"))
                            Sample.with_configs (trim "0a1b2c")))))).
Proof.
  apply (applyConfig_echo (Sample.env "115.0" true (Some "0a1b2c"))
           "linux" "x86_64" Sample.with_configs "0a1b2c").
  - reflexivity.
  - vm_compute. reflexivity.
  - vm_compute. reflexivity.
  - vm_compute. discriminate.
  - vm_compute. discriminate.
  - vm_compute. reflexivity.
Defined.

(** What the sample build echoes. *)
Example applyConfig_sample_echo :
  List.filter (λ e, negb (is_warning e))
    (drop 3 (trace (applyConfig (Sample.env "115.0" true (Some "0a1b2c")) "linux"
                      "x86_64" Sample.with_configs).2))
  = [ Log Info (String "009" "--with-app-name=dot");
      Log Info (String "009" "MOZ_SOURCE_CHANGESET=0a1b2c") ].
Proof. vm_compute. reflexivity. Qed.

Lemma startsWith_app (p s : string) : startsWith p (p +:+ s) = true.
Proof.
  induction p as [|c p IH]; [done|]. rewrite app_cons. simpl.
  by rewrite decide_True.
Qed.

Lemma drop_string_app (p s : string) : drop_string (String.length p) (p +:+ s) = s.
Proof. induction p as [|c p IH]; [by destruct s|]. by rewrite app_cons. Qed.

Lemma remove_first_head (pat s : string) : remove_first pat (pat +:+ s) = s.
Proof.
  destruct (pat +:+ s) as [|c t] eqn:E.
  - destruct pat; [|done]. by rewrite app_empty_l in E.
  - simpl. rewrite <- E, startsWith_app. apply drop_string_app.
Qed.

Lemma remove_first_absent (pat s : string) :
  occurs pat s = false → remove_first pat s = s.
Proof.
  induction s as [|c s IH]; [done|]. simpl. intros H.
  apply orb_false_elim in H as [Hhere Hlater].
  replace (startsWith pat (String c s)) with false. by rewrite (IH Hlater).
Qed.

Lemma remove_first_skip (p0 : ascii) (pat a s : string) :
  includes p0 a = false →
  remove_first (String p0 pat) (a +:+ s) = a +:+ remove_first (String p0 pat) s.
Proof.
  induction a as [|c a IH]; [done|]. intros H.
  apply includes_cons_false in H as [Hc Ha].
  rewrite !app_cons. simpl. rewrite decide_False by done. by rewrite (IH Ha).
Qed.

(** X15: a line of the merged file that is one of the three markers followed
    by text in which no marker occurs is echoed, as a tab and that text: the
    marker is what is stripped. *)
Theorem echo_line_marker (rest : string) (w : world) :
  occurs "mk_add_options " rest = false →
  occurs "ac_add_options " rest = false →
  occurs "export " rest = false →
  echo_line ("mk_add_options " +:+ rest) w
    = (Ret tt, with_event w (Log Info (String "009" rest)))
  ∧ echo_line ("ac_add_options " +:+ rest) w
    = (Ret tt, with_event w (Log Info (String "009" rest)))
  ∧ echo_line ("export " +:+ rest) w
    = (Ret tt, with_event w (Log Info (String "009" rest))).
Proof.
  intros Hmk Hac Hex. rewrite !echo_line_result. unfold echo_text.
  assert (Hechoed : echoed ("mk_add_options " +:+ rest) = true
                    ∧ echoed ("ac_add_options " +:+ rest) = true
                    ∧ echoed ("export " +:+ rest) = true) by done.
  destruct Hechoed as (-> & -> & ->). split_and!; do 3 f_equal.
  - rewrite remove_first_head, (remove_first_absent _ _ Hac),
      (remove_first_absent _ _ Hex). reflexivity.
  - rewrite (remove_first_skip "m" "k_add_options " "ac_add_options ") by reflexivity.
    rewrite (remove_first_absent _ _ Hmk), remove_first_head,
      (remove_first_absent _ _ Hex). reflexivity.
  - rewrite (remove_first_skip "m" "k_add_options " "export ") by reflexivity.
    rewrite (remove_first_absent _ _ Hmk).
    rewrite (remove_first_skip "a" "c_add_options " "export ") by reflexivity.
    rewrite (remove_first_absent _ _ Hac), remove_first_head. reflexivity.
Qed.

Lemma echo_line_marker_witness :
  echo_line ("mk_add_options " +:+ "MOZ_OBJDIR=obj") Sample.fresh
    = (Ret tt, with_event Sample.fresh (Log Info (String "009" "MOZ_OBJDIR=obj")))
  ∧ echo_line ("ac_add_options " +:+ "MOZ_OBJDIR=obj") Sample.fresh
    = (Ret tt, with_event Sample.fresh (Log Info (String "009" "MOZ_OBJDIR=obj")))
  ∧ echo_line ("export " +:+ "MOZ_OBJDIR=obj") Sample.fresh
    = (Ret tt, with_event Sample.fresh (Log Info (String "009" "MOZ_OBJDIR=obj"))).
Proof.
  apply (echo_line_marker "MOZ_OBJDIR=obj" Sample.fresh); reflexivity.
Defined.



(** X17: with a [mach] file in the engine workspace, [genericBuild] hands
    over to [dispatch] with the command [./mach], the argument [build],
    followed by [faster] exactly when a fast build is asked for, and the
    engine workspace as directory; by then it has logged its preamble and the
    contents of [mach], and touched no file. *)
Theorem genericBuild_dispatches
    (env : Env) (dispatch : string → list string → string → bool → M unit)
    (os : string) (fast : bool) (w : world) (contents : string) :
  fs w !! mach_path env = Some (File contents) →
  ∃ w0,
    genericBuild env dispatch os fast w =
      dispatch "./mach" (if fast then ["build"; "faster"] else ["build"])
        (ENGINE_DIR env) true w0
    ∧ trace w0 =
        trace w ++ build_preamble env os fast
        ++ [Log Debug "Mach exists: true";
            Log Debug ("Mach contents: " +:+ nl +:+ " " +:+ contents +:+ nl +:+ nl +:+
                       "===END===")]
    ∧ fs w0 = fs w.
Proof.
  intros Hmach. unfold genericBuild. cbv zeta.
  do 4 (erewrite run_bind by apply emit_run).
  erewrite run_bind by apply existsSync_run.
  erewrite run_bind by apply emit_run.
  erewrite run_bind by (by apply readFileSync_run).
  erewrite run_bind by apply emit_run.
  eexists. split_and!; [by destruct fast | | reflexivity].
  simpl. rewrite Hmach. rewrite bool_decide_eq_true_2 by eauto.
  simpl. by rewrite <- !app_assoc.
Qed.

Lemma genericBuild_dispatches_witness :
  ∃ w0,
    genericBuild (Cases.env_on "linux" None) Cases.dispatch_log "linux" true
      Cases.with_mach =
      Cases.dispatch_log "./mach" (if true then ["build"; "faster"] else ["build"])
        (ENGINE_DIR (Cases.env_on "linux" None)) true w0
    ∧ trace w0 =
        trace Cases.with_mach ++ build_preamble (Cases.env_on "linux" None) "linux" true
        ++ [Log Debug "Mach exists: true";
            Log Debug ("Mach contents: " +:+ nl +:+ " " +:+ "#!/bin/sh" +:+ nl +:+ nl +:+
                       "===END===")]
    ∧ fs w0 = fs Cases.with_mach.
Proof.
  apply (genericBuild_dispatches (Cases.env_on "linux" None) Cases.dispatch_log
           "linux" true Cases.with_mach "#!/bin/sh").
  vm_compute. reflexivity.
Defined.

(** ** Further properties of the build-mode settings generator *)

Lemma mode_flags_lines (ls expected : list string) (fragment : string) :
  fragment = lines ls → ls ≠ [] → Forall one_line ls →
  List.filter mode_flag ls = expected → mode_flags fragment = expected.
Proof. intros -> Hne Hall <-. unfold mode_flags. by rewrite split_lines. Qed.

Ltac one_lines Hbrand Hhost :=
  repeat (apply Forall_cons; split); try apply Forall_nil; unfold one_line in *;
  rewrite ?includes_app, ?Hbrand, ?Hhost; reflexivity.

(** X18: for the modes dev and debug the fragment has, as debug and optimize
    flags, exactly those of the mode: dev disables debugging and says
    nothing on optimisation, debug enables debugging and disables
    optimisation (brand and update host being free of line breaks). *)
Theorem internalMozconfg_dev_debug_flags (cfg : Settings) (brand : string) :
  one_line brand →
  (∀ h, updateHostname cfg = Some h → one_line h) →
  mode_flags (internalMozconfg cfg brand "dev") = ["ac_add_options --disable-debug"]
  ∧ mode_flags (internalMozconfg cfg brand "debug")
    = ["ac_add_options --enable-debug"; "ac_add_options --disable-optimize"].
Proof.
  intros Hbrand Hhost.
  assert (Hor := or_else_one_line (updateHostname cfg)
                   "localhost:7648 # This should not resolve" Hhost eq_refl).
  split.
  - eapply (mode_flags_lines
              [ ""; "# ====================="; "# Internal surfer config";
                "# ====================="; "";
                "# Development build settings";
                "# You can change to other build modes by running:";
                "#   $ surfer set buildMode [dev|debug|release]";
                "ac_add_options --disable-debug";
                "ac_add_options --disable-geckodriver";
                "ac_add_options --disable-profiling";
                "ac_add_options --disable-tests"; ""; "# Custom branding";
                "ac_add_options --with-branding=browser/branding/" +:+ brand; "";
                "# Config for updates"; "ac_add_options --enable-unverified-updates";
                "ac_add_options --enable-update-channel=" +:+ brand;
                "export MOZ_APPUPDATE_HOST=" +:+
                  or_else (updateHostname cfg) "localhost:7648 # This should not resolve";
                "" ]);
      [reflexivity | done | one_lines Hbrand Hor | reflexivity].
  - eapply (mode_flags_lines
              [ ""; "# ====================="; "# Internal surfer config";
                "# ====================="; "";
                "# Debug build settings";
                "# You can change to other build modes by running:";
                "#   $ surfer set buildMode [dev|debug|release]";
                "ac_add_options --enable-debug";
                "ac_add_options --disable-optimize";
                "ac_add_options --disable-geckodriver";
                "ac_add_options --disable-profiling";
                "ac_add_options --disable-tests"; ""; "# Custom branding";
                "ac_add_options --with-branding=browser/branding/" +:+ brand; "";
                "# Config for updates"; "ac_add_options --enable-unverified-updates";
                "ac_add_options --enable-update-channel=" +:+ brand;
                "export MOZ_APPUPDATE_HOST=" +:+
                  or_else (updateHostname cfg) "localhost:7648 # This should not resolve";
                "" ]);
      [reflexivity | done | one_lines Hbrand Hor | reflexivity].
Qed.

Lemma internalMozconfg_dev_debug_flags_witness :
  mode_flags (internalMozconfg Sample.cfg "dot" "dev") = ["ac_add_options --disable-debug"]
  ∧ mode_flags (internalMozconfg Sample.cfg "dot" "debug")
    = ["ac_add_options --enable-debug"; "ac_add_options --disable-optimize"].
Proof.
  apply (internalMozconfg_dev_debug_flags Sample.cfg "dot"); [reflexivity|].
  intros h Hh. discriminate Hh.
Defined.

Lemma startsWith_app_r (p s t : string) :
  startsWith p s = true → startsWith p (s +:+ t) = true.
Proof.
  revert s. induction p as [|c p IH]; intros s; [done|].
  destruct s as [|d s]; [done|]. rewrite app_cons. simpl.
  destruct (decide (c = d)); [apply IH | done].
Qed.

Lemma startsWith_shorter (p x s : string) :
  startsWith (p +:+ x) s = true → startsWith p s = true.
Proof.
  revert s. induction p as [|c p IH]; intros s; [done|].
  rewrite app_cons. destruct s as [|d s]; [done|]. simpl.
  destruct (decide (c = d)); [apply IH | done].
Qed.

Lemma release_flags_of (cfg : Settings) (brand po : string) (expected : list string) :
  one_line brand →
  (∀ h, updateHostname cfg = Some h → one_line h) →
  platformOptimize cfg = po → one_line po →
  List.filter mode_flag [po +:+ " # Taken from waterfox"] = expected →
  mode_flags (internalMozconfg cfg brand "release")
  = ["ac_add_options --disable-debug"; "ac_add_options --enable-optimize"] ++ expected.
Proof.
  intros Hbrand Hhost Hpo Hline Hflag.
  assert (Hor := or_else_one_line (updateHostname cfg)
                   "localhost:7648 # This should not resolve" Hhost eq_refl).
  eapply (mode_flags_lines
            [ ""; "# ====================="; "# Internal surfer config";
              "# ====================="; "";
              "# Release build settings";
              "ac_add_options --disable-debug";
              "ac_add_options --enable-optimize";
              "ac_add_options --enable-rust-simd";
              po +:+ " # Taken from waterfox";
              "ac_add_options --disable-geckodriver";
              "ac_add_options --disable-profiling";
              "ac_add_options --disable-tests"; ""; "# Custom branding";
              "ac_add_options --with-branding=browser/branding/" +:+ brand; "";
              "# Config for updates"; "ac_add_options --enable-unverified-updates";
              "ac_add_options --enable-update-channel=" +:+ brand;
              "export MOZ_APPUPDATE_HOST=" +:+
                or_else (updateHostname cfg) "localhost:7648 # This should not resolve";
              "" ]).
  - unfold internalMozconfg. rewrite Hpo. unfold buildOptions, lines. simpl.
    by rewrite !app_assoc_s.
  - done.
  - repeat (apply Forall_cons; split); try apply Forall_nil; unfold one_line in *;
      rewrite ?includes_app, ?Hbrand, ?Hor, ?Hline; reflexivity.
  - rewrite <- Hflag. simpl.
    by destruct (mode_flag (po +:+ " # Taken from waterfox")).
Qed.

(** X19: for the mode release the fragment disables debugging and enables
    optimisation, and on linux, darwin and win32 a second optimize flag, the
    tuned one of the platform, follows; on any other platform a comment
    naming the platform takes its place and the flags stop at the first two
    (brand, update host and platform name being free of line breaks). *)
Theorem internalMozconfg_release_flags (cfg : Settings) (brand : string) :
  one_line brand →
  (∀ h, updateHostname cfg = Some h → one_line h) →
  one_line (show (surferPlatform cfg)) →
  mode_flags (internalMozconfg cfg brand "release")
  = ["ac_add_options --disable-debug"; "ac_add_options --enable-optimize"]
    ++ (if tuned (surferPlatform cfg)
        then [platformOptimize cfg +:+ " # Taken from waterfox"] else [])
  ∧ (if tuned (surferPlatform cfg)
     then startsWith "ac_add_options --enable-optimize=" (platformOptimize cfg)
     else startsWith "# Unknown platform " (platformOptimize cfg)) = true.
Proof.
  intros Hbrand Hhost Hsp.
  assert (Hcases :
    (tuned (surferPlatform cfg) = true
     ∧ startsWith "ac_add_options --enable-optimize=" (platformOptimize cfg) = true
     ∧ one_line (platformOptimize cfg))
    ∨ (tuned (surferPlatform cfg) = false
       ∧ platformOptimize cfg = "# Unknown platform " +:+ show (surferPlatform cfg))).
  { unfold tuned, platformOptimize, getPlatformOptimiseFlags.
    destruct (decide (surferPlatform cfg = Some "linux")) as [Hl|Hl];
      [left; by rewrite bool_decide_eq_true_2 by (by left)|].
    destruct (decide (surferPlatform cfg = Some "darwin")) as [Hd|Hd];
      [left; by rewrite bool_decide_eq_true_2 by (right; by left)|].
    destruct (decide (surferPlatform cfg = Some "win32")) as [Hw|Hw];
      [left; by rewrite bool_decide_eq_true_2 by (right; by right)|].
    right. by rewrite bool_decide_eq_false_2 by (by intros [?|[?|?]]). }
  destruct Hcases as [(-> & Hflag & Hline) | (-> & Hpo)].
  - split; [|exact Hflag].
    apply (release_flags_of cfg brand (platformOptimize cfg)); try done.
    simpl. unfold mode_flag.
    assert (Hsw : startsWith "ac_add_options --enable-optimize"
                    (platformOptimize cfg +:+ " # Taken from waterfox") = true).
    { apply startsWith_app_r.
      by apply (startsWith_shorter "ac_add_options --enable-optimize" "="). }
    rewrite Hsw. by rewrite !orb_true_r.
  - split; [|by rewrite Hpo].
    apply (release_flags_of cfg brand (platformOptimize cfg)); try done.
    + rewrite Hpo. unfold one_line in *. by rewrite includes_app, Hsp.
    + by rewrite Hpo.
Qed.

Lemma internalMozconfg_release_flags_witness :
  mode_flags (internalMozconfg (Cases.cfg_host (Some "haiku") (Some "updates.example"))
                "dot" "release")
  = ["ac_add_options --disable-debug"; "ac_add_options --enable-optimize"]
    ++ (if tuned (surferPlatform (Cases.cfg_host (Some "haiku") (Some "updates.example")))
        then [platformOptimize (Cases.cfg_host (Some "haiku") (Some "updates.example"))
              +:+ " # Taken from waterfox"]
        else [])
  ∧ (if tuned (surferPlatform (Cases.cfg_host (Some "haiku") (Some "updates.example")))
     then startsWith "ac_add_options --enable-optimize="
            (platformOptimize (Cases.cfg_host (Some "haiku") (Some "updates.example")))
     else startsWith "# Unknown platform "
            (platformOptimize (Cases.cfg_host (Some "haiku") (Some "updates.example"))))
    = true.
Proof.
  apply (internalMozconfg_release_flags
           (Cases.cfg_host (Some "haiku") (Some "updates.example")) "dot").
  - reflexivity.
  - intros h [= <-]. reflexivity.
  - reflexivity.
Defined.

(** X20: whatever the mode, the fragment exports the update host on a line of
    its own: the configured host, or the placeholder [localhost:7648] when
    the configuration has none or an empty one. *)
Theorem internalMozconfg_update_host
    (platform : option string) (host : option string) (brand buildMode : string) :
  contains_line
    ("export MOZ_APPUPDATE_HOST=" +:+
     match host with
     | Some (String c h) => String c h
     | _ => "localhost:7648 # This should not resolve"
     end)
    (internalMozconfg {| surferPlatform := platform; updateHostname := host |}
       brand buildMode).
Proof.
  replace (match host with
           | Some (String c h) => String c h
           | _ => "localhost:7648 # This should not resolve"
           end)
    with (or_else host "localhost:7648 # This should not resolve")
    by (by destruct host as [[|c h]|]).
  unfold internalMozconfg.
  apply (contains_line_lookup _ 16); [done | lia | simpl; lia].
Qed.

(** X21: the template options have six keys. [name] and [vendor] both carry
    the product name, [changeset] what it is given, and [brandingDir] is
    [branding/melon] exactly when [branding/melon] exists in the engine
    workspace, [branding/unofficial] otherwise. *)
Theorem templateOptions_entries (env : Env) (w : world) (changeset key : string) :
  options_in env w changeset !! "name" = Some (config_name env)
  ∧ options_in env w changeset !! "vendor" = Some (config_name env)
  ∧ options_in env w changeset !! "appId" = Some (config_appId env)
  ∧ options_in env w changeset !! "binName" = Some (config_binaryName env)
  ∧ options_in env w changeset !! "changeset" = Some changeset
  ∧ options_in env w changeset !! "brandingDir" =
      Some (if bool_decide
                 (is_Some (fs w !! join_path env [ENGINE_DIR env; "branding"; "melon"]))
            then "branding/melon" else "branding/unofficial")
  ∧ (is_Some (options_in env w changeset !! key) ↔ key ∈ option_keys).
Proof.
  unfold options_in, templateOptions, option_keys. simpl.
  split_and!; try by simplify_map_eq.
  rewrite !lookup_insert_is_Some', lookup_empty, !elem_of_cons, elem_of_nil.
  split.
  - intros [<-|[<-|[<-|[<-|[<-|[<-|[? ?]]]]]]]; auto 10. done.
  - intros [->|[->|[->|[->|[->|[->|[]]]]]]]; auto 10.
Qed.
